(** * coub-dl: the archive driver of coub-backup

    A shallow embedding of [coub-dl.go] and the properties of its
    catalogue loading, per-clip preparation, submission loop and
    asset-group downloaders.

    Every function of the Go file is a Rocq function in a small trace
    monad: it returns the Go return value together with the sequence of
    calls it makes to the outside world (file system, logger, fetch
    primitive, wait groups).  A goroutine is one event that carries the
    trace of its body, so no interleaving is chosen.  The outcome of a
    call to the outside world is given by an environment of oracles; so
    is the order in which the goroutines of [DownloadCoubData] and the
    function itself access the variable [err] that they share. *)

From Stdlib Require Import List String Ascii ZArith Lia Bool Arith DecimalString.
Import ListNotations.
Local Open Scope string_scope.
Local Open Scope list_scope.

(** ** Go values *)

(** A non-nil Go [error].  [os.ErrInvalid] is singled out because the
    methods of a nil [*os.File] return it. *)
Inductive error : Type :=
| ErrInvalid
| ErrExternal (msg : string).

Definition Error (e : error) : string :=
  match e with
  | ErrInvalid => "invalid argument"
  | ErrExternal msg => msg
  end.

(** A Go [error] value: [None] is [nil]. *)
Definition goerror : Type := option error.

(** ** The parts of the Go library the program computes with *)

Module strings.

Definition bytes (l : list nat) : string :=
  string_of_list_ascii (map ascii_of_nat l).

(** UTF-8 encodings of the code points for which [unicode.IsSpace]
    holds: tab, LF, VT, FF, CR, space, U+0085, U+00A0, U+1680,
    U+2000..U+200A, U+2028, U+2029, U+202F, U+205F, U+3000. *)
Definition space_runes : list (list ascii) :=
  map (map ascii_of_nat)
    ([[9]; [10]; [11]; [12]; [13]; [32]; [194; 133]; [194; 160];
      [225; 154; 128]]
     ++ map (fun k => [226; 128; 128 + k]) (seq 0 11)
     ++ [[226; 128; 168]; [226; 128; 169]; [226; 128; 175];
         [226; 129; 159]; [227; 128; 128]]).

Fixpoint strip_prefix (p s : list ascii) : option (list ascii) :=
  match p, s with
  | [], _ => Some s
  | a :: p', b :: s' => if Ascii.eqb a b then strip_prefix p' s' else None
  | _ :: _, [] => None
  end.

Fixpoint strip_any (ps : list (list ascii)) (s : list ascii)
  : option (list ascii) :=
  match ps with
  | [] => None
  | p :: ps' =>
      match strip_prefix p s with
      | Some s' => Some s'
      | None => strip_any ps' s
      end
  end.

Fixpoint trim_front (runes : list (list ascii)) (fuel : nat)
  (s : list ascii) : list ascii :=
  match fuel with
  | O => s
  | S fuel' =>
      match strip_any runes s with
      | Some s' => trim_front runes fuel' s'
      | None => s
      end
  end.

Definition TrimLeftSpace (s : list ascii) : list ascii :=
  trim_front space_runes (List.length s) s.

Definition TrimRightSpace (s : list ascii) : list ascii :=
  rev (trim_front (map (@rev ascii) space_runes) (List.length s) (rev s)).

(** [strings.TrimSpace]: leading and trailing white space removed. *)
Definition TrimSpace (s : string) : string :=
  string_of_list_ascii
    (TrimRightSpace (TrimLeftSpace (list_ascii_of_string s))).

(** [strings.Replace s old new (-1)] for a non-empty [old]: every
    non-overlapping occurrence of [old], leftmost first, becomes [new].
    [skip] counts the bytes of a matched occurrence still to be dropped. *)
Fixpoint replace_from (old new : string) (skip : nat) (s : string) : string :=
  match s with
  | EmptyString => EmptyString
  | String c s' =>
      match skip with
      | S k => replace_from old new k s'
      | O =>
          if prefix old s
          then new ++ replace_from old new (String.length old - 1) s'
          else String c (replace_from old new 0 s')
      end
  end.

Definition ReplaceAll (s old new : string) : string :=
  match old with
  | EmptyString => s   (* never the case in this program *)
  | _ => replace_from old new 0 s
  end.

End strings.

Module strconv.
(** [strconv.Itoa] *)
Definition Itoa (n : Z) : string := NilZero.string_of_int (Z.to_int n).
End strconv.

(** ** Data model *)

(** A [time.Time], a [float64] and the value of the external-download
    field are only ever rendered by the program ([String()], ["%.2f"],
    ["%v"]); each is represented by that rendering. *)
Record Time : Type := { Time_String : string }.
Record float64 : Type := { Sprintf_2f : string }.
Record Source : Type := { Sprintf_v : string }.

Record Tag : Type := { TagTitle : string }.

(** [coub.FileVersions]: the fixed renditions, named by their path in the
    struct ([FileVersions.HTML5.Video.Med.URL], ...). *)
Record FileVersions_t : Type := {
  HTML5_Video_Med_URL : string;
  HTML5_Video_High_URL : string;
  HTML5_Video_Higher_URL : string;
  HTML5_Audio_High_URL : string;
  HTML5_Audio_Med_URL : string;
  Share_Default : string
}.

(** [coub.ImageVersions] and [coub.FirstFrameVersions] *)
Record VersionSet : Type := {
  Template : string;
  Versions : list string
}.

(** Modelled from the spec: the declaration of the [Coub] struct is not
    part of [coub-dl.go]; the record has the fields the file reads, with
    the attributes the data model of the specification lists. *)
Record Coub : Type := {
  Title : string;
  Type_ : string;
  CreatedAt : Time;
  Duration : float64;
  ViewsCount : Z;
  RecoubsCount : Z;
  ExternalDownload : Source;
  Tags : list Tag;
  FileVersions : FileVersions_t;
  ImageVersions : VersionSet;
  FirstFrameVersions : VersionSet
}.

(** The assignment [coub.Title = t] on a (copied) struct value. *)
Definition set_Title (coub : Coub) (t : string) : Coub :=
  {| Title := t;
     Type_ := coub.(Type_);
     CreatedAt := coub.(CreatedAt);
     Duration := coub.(Duration);
     ViewsCount := coub.(ViewsCount);
     RecoubsCount := coub.(RecoubsCount);
     ExternalDownload := coub.(ExternalDownload);
     Tags := coub.(Tags);
     FileVersions := coub.(FileVersions);
     ImageVersions := coub.(ImageVersions);
     FirstFrameVersions := coub.(FirstFrameVersions) |}.

(** ** The outside world *)

(** The two [sync.WaitGroup]s of the program: the one [ReadCoub] declares
    and the one each [DownloadCoubData] declares. *)
Inductive WaitGroup : Type := wg_ReadCoub | wg_DownloadCoubData.

(** [time.Duration] values, in nanoseconds. *)
Definition Millisecond : Z := 1000000.
Definition Second : Z := 1000 * Millisecond.
Definition DownloadInterval : Z := Millisecond * 100.

Set Warnings "-register-all".

(** One call to the outside world.  [EGo body] starts a goroutine whose
    own calls are [body].  [EPanic] and [ENilDereference] are the two
    run-time panics the program can reach, an index out of range and a
    call of [Error] on a nil error: the goroutine that reaches one ends
    there and the Go runtime ends the program, so that the traces of the
    other threads are what they do as far as they get. *)
Inductive event : Type :=
| ELog (msg : string)
| EPrintln (msg : string)
| EOpen (name : string)
| EDecode (name : string)
| EFileClose (name : string)
| ECreateCoubDir (rootdir : string) (coub : Coub)
| EWriteFile (name data : string)
| ECreate (name : string)
| EWriteString (name s : string)
| EDownloadFile (filepath url : string)
| ESleep (d : Z)
| EAdd (wg : WaitGroup)
| EDone (wg : WaitGroup)
| EWait (wg : WaitGroup)
| EGo (body : list event)
| EPanic
| ENilDereference.

Definition trace : Type := list event.

(** ** The variable [err] of [DownloadCoubData]

    The named result [err] of [DownloadCoubData] is assigned and read by
    its three goroutines and by the function itself, with nothing that
    orders the accesses of one against those of another: a goroutine
    assigns it after its group has signalled [Done].  The accesses are
    taken to be made one at a time, in an order that the outside world
    chooses. *)

(** The three asset groups of a clip, in the order in which their
    goroutines are started. *)
Inductive group : Type := Frames | Images | Files.

(** The threads that access [err].  A goroutine does, in this order: the
    assignment [err = Download...(...)], the read of [err != nil] and,
    when that read was not nil, the read of [err.Error()].  The function
    does: the assignment of [return nil], and the read of the result
    that is handed to the caller once the deferred call has run. *)
Inductive thread : Type := Branch (g : group) | Coordinator.

Definition group_eqb (a b : group) : bool :=
  match a, b with
  | Frames, Frames => true
  | Images, Images => true
  | Files, Files => true
  | _, _ => false
  end.

Definition update {A : Type} (f : group -> A) (g : group) (a : A)
  : group -> A :=
  fun g' => if group_eqb g g' then a else f g'.

(** The state of the accesses: the value of [err], how many accesses
    each thread has made, and what the reads have seen. *)
Record race : Type := {
  cell : goerror;
  branch_pc : group -> nat;
  coordinator_pc : nat;
  test_saw : group -> goerror;
  message_saw : group -> goerror;
  returned : goerror
}.

Definition race_start : race :=
  {| cell := None;
     branch_pc := fun _ => 0;
     coordinator_pc := 0;
     test_saw := fun _ => None;
     message_saw := fun _ => None;
     returned := None |}.

(** The thread [th] makes its next access, if it has one left;
    [results g] is what the group [g] has returned. *)
Definition race_step (results : group -> goerror) (s : race) (th : thread)
  : race :=
  match th with
  | Branch g =>
      match s.(branch_pc) g with
      | 0 =>                                   (* err = Download...(...) *)
          {| cell := results g;
             branch_pc := update s.(branch_pc) g 1;
             coordinator_pc := s.(coordinator_pc);
             test_saw := s.(test_saw);
             message_saw := s.(message_saw);
             returned := s.(returned) |}
      | 1 =>                                   (* if err != nil *)
          {| cell := s.(cell);
             branch_pc := update s.(branch_pc) g
                            (match s.(cell) with Some _ => 2 | None => 3 end);
             coordinator_pc := s.(coordinator_pc);
             test_saw := update s.(test_saw) g s.(cell);
             message_saw := s.(message_saw);
             returned := s.(returned) |}
      | 2 =>                                   (* err.Error() *)
          {| cell := s.(cell);
             branch_pc := update s.(branch_pc) g 3;
             coordinator_pc := s.(coordinator_pc);
             test_saw := s.(test_saw);
             message_saw := update s.(message_saw) g s.(cell);
             returned := s.(returned) |}
      | _ => s
      end
  | Coordinator =>
      match s.(coordinator_pc) with
      | 0 =>                                   (* return nil *)
          {| cell := None;
             branch_pc := s.(branch_pc);
             coordinator_pc := 1;
             test_saw := s.(test_saw);
             message_saw := s.(message_saw);
             returned := s.(returned) |}
      | 1 =>                                   (* the result is read *)
          {| cell := s.(cell);
             branch_pc := s.(branch_pc);
             coordinator_pc := 2;
             test_saw := s.(test_saw);
             message_saw := s.(message_saw);
             returned := s.(cell) |}
      | _ => s
      end
  end.

(** The accesses that a schedule leaves undone are made at its end,
    thread after thread. *)
Definition race_rest : list thread :=
  [ Branch Frames; Branch Frames; Branch Frames;
    Branch Images; Branch Images; Branch Images;
    Branch Files; Branch Files; Branch Files;
    Coordinator; Coordinator ].

(** All the accesses, made in the order of [schedule]: each entry lets
    the named thread make its next access.  Every list is an
    interleaving, and every interleaving is given by a list. *)
Definition race_run (results : group -> goerror) (schedule : list thread)
  : race :=
  fold_left (race_step results) (schedule ++ race_rest) race_start.

(** What the outside world answers; an answer depends on the arguments
    of the call only.  [w_CreateCoubDir], [w_DownloadFile] and
    [w_FileNameFromURL] stand for the three functions of the repository
    that [coub-dl.go] calls and does not define; the others are calls
    into the Go library.  [w_Decode] gives the slice that [Decode] has
    filled when it returns, together with its error.  [w_schedule] is
    the order in which the accesses to [err] are made in the call of
    [DownloadCoubData] for a directory and a clip. *)
Record World : Type := {
  w_Open : string -> goerror;
  w_Decode : string -> list Coub * goerror;
  w_MarshalIndent : Coub -> string;
  w_WriteFile : string -> string -> goerror;
  w_Create : string -> goerror;
  w_WriteString : string -> string -> goerror;
  w_Close : string -> goerror;
  w_CreateCoubDir : string -> Coub -> string * goerror;
  w_DownloadFile : string -> string -> goerror;
  w_FileNameFromURL : string -> string;
  w_schedule : string -> Coub -> list thread
}.

(** ** The trace monad *)

Definition M (A : Type) : Type := (A * trace)%type.

Definition ret {A : Type} (a : A) : M A := (a, []).

Definition bind {A B : Type} (m : M A) (k : A -> M B) : M B :=
  let (a, t1) := m in
  let (b, t2) := k a in
  (b, t1 ++ t2).

Definition emit (e : event) : M unit := (tt, [e]).

(** The value a computation returns and the calls it makes. *)
Definition result {A : Type} (m : M A) : A := fst m.
Definition calls {A : Type} (m : M A) : trace := snd m.

(** [go func() { body }()] *)
Definition go (body : M unit) : M unit := emit (EGo (calls body)).

(** [defer wg.Done()] at the head of a function with body [m]. *)
Definition defer_Done {A : Type} (wg : WaitGroup) (m : M A) : M A :=
  let (a, t) := m in (a, t ++ [EDone wg]).

Declare Scope go_scope.
Delimit Scope go_scope with go.
Notation "x <- m ;; k" := (bind m (fun x => k))
  (at level 61, m at next level, right associativity) : go_scope.
Notation "m ;; k" := (bind m (fun _ => k))
  (at level 61, right associativity) : go_scope.
Local Open Scope go_scope.

(** [err = m; if err != nil { return err }; k] *)
Definition check (m : M goerror) (k : M goerror) : M goerror :=
  err <- m ;;
  match err with
  | Some _ => ret err
  | None => k
  end.

(** ** The program *)

Section Program.

Variable W : World.

(** A [*os.File]: [None] is the nil pointer, [Some name] an open file. *)
Definition File : Type := option string.

Definition log_Println (msg : string) : M unit := emit (ELog msg).
Definition log_Print (msg : string) : M unit := emit (ELog msg).
Definition fmt_Println (msg : string) : M unit := emit (EPrintln msg).
Definition time_Sleep (d : Z) : M unit := emit (ESleep d).

Definition os_Open (name : string) : M (File * goerror) :=
  emit (EOpen name) ;;
  match W.(w_Open) name with
  | Some e => ret (None, Some e)
  | None => ret (Some name, None)
  end.

Definition os_Create (name : string) : M (File * goerror) :=
  emit (ECreate name) ;;
  match W.(w_Create) name with
  | Some e => ret (None, Some e)
  | None => ret (Some name, None)
  end.

(** [f.WriteString(s)]; on a nil file it returns [os.ErrInvalid]
    without touching the file system. *)
Definition File_WriteString (f : File) (s : string) : M goerror :=
  match f with
  | None => ret (Some ErrInvalid)
  | Some name => emit (EWriteString name s) ;; ret (W.(w_WriteString) name s)
  end.

Definition File_Close (f : File) : M goerror :=
  match f with
  | None => ret (Some ErrInvalid)
  | Some name => emit (EFileClose name) ;; ret (W.(w_Close) name)
  end.

(** [json.NewDecoder(f).Decode(&tmpCoubs)]: the slice as [Decode]
    leaves it, and the error. *)
Definition json_Decode (f : File) : M (list Coub * goerror) :=
  match f with
  | None => ret ([], Some ErrInvalid)
  | Some name => emit (EDecode name) ;; ret (W.(w_Decode) name)
  end.

Definition json_MarshalIndent (coub : Coub) : M string :=
  ret (W.(w_MarshalIndent) coub).

Definition ioutil_WriteFile (name data : string) : M goerror :=
  emit (EWriteFile name data) ;; ret (W.(w_WriteFile) name data).

Definition CreateCoubDir (rootdir : string) (coub : Coub)
  : M (string * goerror) :=
  emit (ECreateCoubDir rootdir coub) ;; ret (W.(w_CreateCoubDir) rootdir coub).

Definition DownloadFile (filepath url : string) : M goerror :=
  emit (EDownloadFile filepath url) ;; ret (W.(w_DownloadFile) filepath url).

Definition FileNameFromURL (url : string) : string :=
  W.(w_FileNameFromURL) url.

(** *** GetNonRecoubs *)

(** The body of [for _, coub := range tmpCoubs]. *)
Definition keep_non_recoub (coubs : list Coub) (coub : Coub) : list Coub :=
  if negb (String.eqb coub.(Type_) "Coub::Recoub")
  then coubs ++ [coub]
  else coubs.

Definition GetNonRecoubs (dir user : string) : M (list Coub * goerror) :=
  r <- os_Open (dir ++ "/" ++ user ++ ".json") ;;
  let (jsonFile, err) := r in
  match err with
  | Some _ => ret ([], err)
  | None =>
      d <- json_Decode jsonFile ;;
      (* the error of Decode is assigned to err and not read again *)
      let (tmpCoubs, _) := d in
      let coubs := fold_left keep_non_recoub tmpCoubs [] in
      File_Close jsonFile ;;             (* defer jsonFile.Close() *)
      ret (coubs, None)
  end.

(** *** CreateCoubInfoFiles *)

(** The line feed that ends each line of [info.txt]. *)
Definition nl : string := String "010" EmptyString.

(** [for i, tag := range coub.Tags], from index [i], with [n] the
    length of the whole tag list. *)
Fixpoint write_tags (infoFile : File) (n : nat) (i : nat) (tags : list Tag)
  : M goerror :=
  match tags with
  | [] => ret None
  | tag :: rest =>
      check
        (if (Z.of_nat i =? Z.of_nat n - 1)%Z
         then File_WriteString infoFile (tag.(TagTitle) ++ nl)
         else File_WriteString infoFile (tag.(TagTitle) ++ ", "))
        (write_tags infoFile n (S i) rest)
  end.

Definition CreateCoubInfoFiles (dir : string) (coub : Coub) : M goerror :=
  outputFile <- json_MarshalIndent coub ;;
  check (ioutil_WriteFile (dir ++ "/metadata.json") outputFile) (
  r <- os_Create (dir ++ "/info.txt") ;;
  let (infoFile, err) := r in
  match err with
  | Some e => fmt_Println ("Unable to open file: %s " ++ Error e)
  | None => ret tt
  end ;;
  check (File_WriteString infoFile ("Title: " ++ coub.(Title) ++ nl)) (
  check (File_WriteString infoFile
           ("Created At: " ++ coub.(CreatedAt).(Time_String) ++ nl)) (
  check (File_WriteString infoFile
           ("Duration: " ++ coub.(Duration).(Sprintf_2f) ++ nl)) (
  check (File_WriteString infoFile
           ("Views: " ++ strconv.Itoa coub.(ViewsCount) ++ nl)) (
  check (File_WriteString infoFile
           ("Recoubs: " ++ strconv.Itoa coub.(RecoubsCount) ++ nl)) (
  File_WriteString infoFile
    ("Source: " ++ coub.(ExternalDownload).(Sprintf_v) ++ nl) ;;
  File_WriteString infoFile "Tags: " ;;
  check (write_tags infoFile (List.length coub.(Tags)) 0 coub.(Tags)) (
  check (File_Close infoFile) (
  ret None)))))))).

(** *** The asset groups *)

(** One step of [DownloadFileVersions]: fetch, log a failure, go on. *)
Definition fetch_logged (dst url what title : string) : M unit :=
  err <- DownloadFile dst url ;;
  match err with
  | Some e => log_Println ("Error downloading " ++ what ++ " for: "
                           ++ title ++ ": " ++ Error e)
  | None => ret tt
  end.

Definition DownloadFileVersions (wg : WaitGroup) (filepath : string)
  (coub : Coub) : M goerror :=
  defer_Done wg (
    let url := coub.(FileVersions).(HTML5_Video_Med_URL) in
    fetch_logged (filepath ++ "/" ++ FileNameFromURL url) url
      "Medium Quality HTML5 Video" coub.(Title) ;;
    time_Sleep DownloadInterval ;;
    let url := coub.(FileVersions).(HTML5_Video_High_URL) in
    fetch_logged (filepath ++ "/" ++ FileNameFromURL url) url
      "High Quality HTML5 Video" coub.(Title) ;;
    time_Sleep DownloadInterval ;;
    let url := coub.(FileVersions).(HTML5_Video_Higher_URL) in
    fetch_logged (filepath ++ "/" ++ FileNameFromURL url) url
      "Higher Quality HTML5 Video" coub.(Title) ;;
    time_Sleep DownloadInterval ;;
    let url := coub.(FileVersions).(HTML5_Audio_High_URL) in
    fetch_logged (filepath ++ "/" ++ FileNameFromURL url) url
      "Higher Quality HTML5 Audio" coub.(Title) ;;
    time_Sleep DownloadInterval ;;
    let url := coub.(FileVersions).(HTML5_Audio_Med_URL) in
    fetch_logged (filepath ++ "/" ++ FileNameFromURL url) url
      "Medium Quality HTML5 Audio" coub.(Title) ;;
    time_Sleep DownloadInterval ;;
    let url := coub.(FileVersions).(Share_Default) in
    fetch_logged (filepath ++ "/" ++ FileNameFromURL url) url
      "Default Share File" coub.(Title) ;;
    let url := coub.(FileVersions).(Share_Default) in
    fetch_logged (filepath ++ "/" ++ coub.(Title) ++ ".mp4") url
      "(renamed) Default Share File" coub.(Title) ;;
    ret None).

(** [for _, version := range versions] of the image and frame groups. *)
Fixpoint download_versions (filepath template : string)
  (versions : list string) : M goerror :=
  match versions with
  | [] => ret None
  | version :: rest =>
      let url := strings.ReplaceAll template "%{version}" version in
      check (DownloadFile (filepath ++ "/" ++ FileNameFromURL url) url) (
      time_Sleep (Second * 1) ;;
      download_versions filepath template rest)
  end.

Definition DownloadImageVersions (wg : WaitGroup) (filepath : string)
  (coub : Coub) : M goerror :=
  defer_Done wg (
    let template := coub.(ImageVersions).(Template) in
    download_versions filepath template coub.(ImageVersions).(Versions)).

Definition DownloadFirstFrameVersions (wg : WaitGroup) (filepath : string)
  (coub : Coub) : M goerror :=
  defer_Done wg (
    let template := coub.(FirstFrameVersions).(Template) in
    download_versions filepath template coub.(FirstFrameVersions).(Versions)).

(** *** DownloadCoubData *)

(** A branch of the fan-out: announce, run the group, assign its result
    to [err], test [err] and log it.  [test] and [message] are what the
    two reads of [err] see; when the second sees nil, [err.Error()]
    dereferences nil. *)
Definition branch (announce failed title : string) (group : M goerror)
  (test message : goerror) : M unit :=
  log_Print (announce ++ title) ;;
  group ;;
  match test with
  | Some _ =>
      match message with
      | Some e => log_Println (failed ++ Error e)
      | None => emit ENilDereference
      end
  | None => ret tt
  end.

Definition DownloadCoubData (PoolWG : WaitGroup) (rootdir : string)
  (coub : Coub) : M goerror :=
  defer_Done PoolWG (
    let wg := wg_DownloadCoubData in
    let frames := DownloadFirstFrameVersions wg rootdir coub in
    let images := DownloadImageVersions wg rootdir coub in
    let files := DownloadFileVersions wg rootdir coub in
    let err :=
      race_run (fun g => match g with
                         | Frames => result frames
                         | Images => result images
                         | Files => result files
                         end)
        (W.(w_schedule) rootdir coub) in
    emit (EAdd wg) ;;
    go (branch "Downloading Frames for Coub: "
          "Error Downloading First Frame Versions: " coub.(Title)
          frames (err.(test_saw) Frames) (err.(message_saw) Frames)) ;;
    emit (EAdd wg) ;;
    go (branch "Downloading Images for Coub: "
          "Error Downloading Image Versions: " coub.(Title)
          images (err.(test_saw) Images) (err.(message_saw) Images)) ;;
    emit (EAdd wg) ;;
    go (branch "Downloading Media Files for Coub: "
          "Error Downloading File Versions: " coub.(Title)
          files (err.(test_saw) Files) (err.(message_saw) Files)) ;;
    emit (EWait wg) ;;
    log_Println ("Finished Downloading Coub: " ++ coub.(Title)) ;;
    ret err.(returned)).

(** *** ReadCoub *)

(** The goroutine [go func(coubID int) {...}(i)]: it reads the clip
    from the slice, [coubs[coubID]], not from the loop variable.  The
    variable [err] it assigns is the one of its own iteration of the
    loop, which nothing else accesses after the goroutine is started. *)
Definition download_task (wg : WaitGroup) (coubs : list Coub)
  (outdir : string) (coubID : nat) : M unit :=
  match nth_error coubs coubID with
  | None => emit EPanic          (* index out of range *)
  | Some c =>
      log_Println ("Downloading Coub: " ++ c.(Title)) ;;
      err <- DownloadCoubData wg outdir c ;;
      match err with
      | Some e => log_Println ("Error downloading coub: " ++ c.(Title)
                               ++ " " ++ Error e)
      | None => ret tt
      end
  end.

(** [for i, coub := range coubs], from index [i] on, [rest] being
    [coubs[i:]].  [Some err] is the [return err] inside the loop,
    [None] the normal end of the loop. *)
Fixpoint submit_loop (wg : WaitGroup) (rootdir : string)
  (coubs : list Coub) (i : nat) (rest : list Coub) : M goerror :=
  match rest with
  | [] => ret None
  | coub0 :: rest' =>
      let coub := set_Title coub0 (strings.TrimSpace coub0.(Title)) in
      log_Println ("Processing Coub: " ++ coub.(Title)) ;;
      r <- CreateCoubDir rootdir coub ;;
      let (outdir, err) := r in
      match err with
      | Some _ => ret err
      | None =>
          check (CreateCoubInfoFiles outdir coub) (
          emit (EAdd wg) ;;
          go (download_task wg coubs outdir i) ;;
          time_Sleep (Second * 1) ;;
          (if Nat.eqb (i mod 5) 0 then emit (EWait wg) else ret tt) ;;
          submit_loop wg rootdir coubs (S i) rest')
      end
  end.

Definition ReadCoub (rootdir user : string) : M goerror :=
  r <- GetNonRecoubs rootdir user ;;
  let (coubs, err) := r in
  match err with
  | Some _ => ret err
  | None =>
      log_Println ("Total Coubs to process: "
                   ++ strconv.Itoa (Z.of_nat (List.length coubs))) ;;
      let wg := wg_ReadCoub in
      check (submit_loop wg rootdir coubs 0 coubs) (
      emit (EWait wg) ;;
      log_Println "All found coubs downloaded" ;;
      ret None)
  end.

End Program.

(** ** What a trace shows *)

(** The fetches a trace makes itself (not those of goroutines it starts),
    as pairs of destination path and URL, in order. *)
Definition downloads (t : trace) : list (string * string) :=
  flat_map (fun e => match e with
                     | EDownloadFile dst url => [(dst, url)]
                     | _ => []
                     end) t.

(** The clips for which a directory is requested, in order. *)
Definition dirs_requested (t : trace) : list Coub :=
  flat_map (fun e => match e with
                     | ECreateCoubDir _ coub => [coub]
                     | _ => []
                     end) t.

(** The bodies of the goroutines a trace starts, in order. *)
Definition submitted (t : trace) : list trace :=
  flat_map (fun e => match e with
                     | EGo body => [body]
                     | _ => []
                     end) t.

(** Every fetch of a trace, those of its goroutines included. *)
Fixpoint all_downloads_of (e : event) : list (string * string) :=
  match e with
  | EDownloadFile dst url => [(dst, url)]
  | EGo body => flat_map all_downloads_of body
  | _ => []
  end.

Definition all_downloads (t : trace) : list (string * string) :=
  flat_map all_downloads_of t.

(** The files written in one piece, with their content, in order. *)
Definition metadata_dumps (t : trace) : list (string * string) :=
  flat_map (fun e => match e with
                     | EWriteFile name data => [(name, data)]
                     | _ => []
                     end) t.

(** A trace consists of operations on an opened file and console output
    only. *)
Definition info_only (t : trace) : bool :=
  forallb (fun e => match e with
                    | ECreate _ | EWriteString _ _
                    | EFileClose _ | EPrintln _ => true
                    | _ => false
                    end) t.

(** A trace starts no goroutine. *)
Definition sequential (t : trace) : bool :=
  forallb (fun e => match e with EGo _ => false | _ => true end) t.

(** The text that the successful [WriteString] calls of a trace append
    to the file [name]. *)
Definition written (W : World) (name : string) (t : trace) : string :=
  fold_right String.append EmptyString
    (flat_map (fun e => match e with
                        | EWriteString f s =>
                            if String.eqb f name
                            then match W.(w_WriteString) f s with
                                 | None => [s]
                                 | Some _ => []
                                 end
                            else []
                        | _ => []
                        end) t).

Fixpoint newlines (s : string) : nat :=
  match s with
  | EmptyString => 0
  | String c s' => (if Ascii.eqb c "010" then 1 else 0) + newlines s'
  end.

(** The driver's submissions and barriers. *)
Inductive step : Type := Submit | Barrier.

Definition schedule (t : trace) : list step :=
  flat_map (fun e => match e with
                     | EGo _ => [Submit]
                     | EWait _ => [Barrier]
                     | _ => []
                     end) t.

(** The largest number of submitted clips that can be outstanding at
    once along a schedule that starts with [running] of them: a
    submission adds one, a barrier returns when none is left. *)
Fixpoint peak (running : nat) (s : list step) : nat :=
  match s with
  | [] => running
  | Submit :: s' => Nat.max running (peak (S running) s')
  | Barrier :: s' => Nat.max running (peak 0 s')
  end.

(** The submission schedule the loop follows from index [i] for [n]
    clips: a barrier after the submission of index [i] when [i mod 5 = 0]. *)
Definition loop_schedule (i n : nat) : list step :=
  flat_map (fun k => if Nat.eqb (k mod 5) 0 then [Submit; Barrier] else [Submit])
    (seq i n).

(** ** Vocabulary of the properties *)

(** What the three groups of a clip return, and the accesses to [err]
    in the call of [DownloadCoubData] for the clip. *)
Definition group_results (W : World) (rootdir : string) (coub : Coub)
  (g : group) : goerror :=
  match g with
  | Frames => result (DownloadFirstFrameVersions W wg_DownloadCoubData rootdir coub)
  | Images => result (DownloadImageVersions W wg_DownloadCoubData rootdir coub)
  | Files => result (DownloadFileVersions W wg_DownloadCoubData rootdir coub)
  end.

Definition clip_race (W : World) (rootdir : string) (coub : Coub) : race :=
  race_run (group_results W rootdir coub) (W.(w_schedule) rootdir coub).

(** A value that [err] can hold: nil, or what one of the groups
    returned. *)
Definition held (results : group -> goerror) (v : goerror) : Prop :=
  v = None \/ exists g, v = results g.

Definition non_recoub (coub : Coub) : bool :=
  negb (String.eqb coub.(Type_) "Coub::Recoub").

(** The catalogue file of a user. *)
Definition catalog_path (dir user : string) : string :=
  (dir ++ "/" ++ user ++ ".json")%string.

(** The clip as the loop of [ReadCoub] holds it after trimming. *)
Definition trimmed (coub : Coub) : Coub :=
  set_Title coub (strings.TrimSpace coub.(Title)).

(** Directory and metadata files of a clip are created without error. *)
Definition prepares (W : World) (rootdir : string) (coub : Coub) : Prop :=
  snd (W.(w_CreateCoubDir) rootdir coub) = None /\
  result (CreateCoubInfoFiles W (fst (W.(w_CreateCoubDir) rootdir coub)) coub) = None.

(** What the loop of [ReadCoub] does for the clip of index [i] once its
    directory [outdir] is prepared: count it, start its download, pause,
    and wait at the barrier when [i mod 5 = 0]. *)
Definition submission (W : World) (wg : WaitGroup) (coubs : list Coub)
  (outdir : string) (i : nat) : trace :=
  [EAdd wg; EGo (calls (download_task W wg coubs outdir i));
   ESleep (Second * 1)]
  ++ (if Nat.eqb (i mod 5) 0 then [EWait wg] else []).

(** The download started for a clip of the catalogue: the goroutine of
    the loop, on the clip as it stands in the slice, into the directory
    prepared for the trimmed clip. *)
Definition clip_download (W : World) (wg : WaitGroup) (rootdir : string)
  (c : Coub) : trace :=
  calls (download_task W wg [c]
           (fst (W.(w_CreateCoubDir) rootdir (trimmed c))) 0).

(** The dump of a clip into [metadata.json] of its directory. *)
Definition clip_dump (W : World) (rootdir : string) (c : Coub)
  : string * string :=
  ((fst (W.(w_CreateCoubDir) rootdir (trimmed c)) ++ "/metadata.json")%string,
   W.(w_MarshalIndent) (trimmed c)).

(** The URL and the fetch of one version of a rendition set. *)
Definition version_url (template version : string) : string :=
  strings.ReplaceAll template "%{version}" version.

Definition version_fetch (W : World) (filepath template version : string)
  : string * string :=
  ((filepath ++ "/" ++ FileNameFromURL W (version_url template version))%string,
   version_url template version).

(** What the fetch primitive answers for one version of a set. *)
Definition fetch_answer (W : World) (filepath template version : string)
  : goerror :=
  W.(w_DownloadFile) (fst (version_fetch W filepath template version))
    (snd (version_fetch W filepath template version)).


(** No fetch of the set fails. *)
Definition no_failure (W : World) (filepath : string) (vs : VersionSet) : Prop :=
  Forall (fun u => fetch_answer W filepath vs.(Template) u = None) vs.(Versions).

(** The seven fetches of the file-rendition group. *)
Definition file_fetches (W : World) (filepath : string) (coub : Coub)
  : list (string * string) :=
  let fv := coub.(FileVersions) in
  let named url := ((filepath ++ "/" ++ FileNameFromURL W url)%string, url) in
  [ named fv.(HTML5_Video_Med_URL);
    named fv.(HTML5_Video_High_URL);
    named fv.(HTML5_Video_Higher_URL);
    named fv.(HTML5_Audio_High_URL);
    named fv.(HTML5_Audio_Med_URL);
    named fv.(Share_Default);
    ((filepath ++ "/" ++ coub.(Title) ++ ".mp4")%string, fv.(Share_Default)) ].

(** The six fixed lines of [info.txt] that precede the tags. *)
Definition info_header (coub : Coub) : string :=
  ("Title: " ++ coub.(Title) ++ nl
  ++ "Created At: " ++ coub.(CreatedAt).(Time_String) ++ nl
  ++ "Duration: " ++ coub.(Duration).(Sprintf_2f) ++ nl
  ++ "Views: " ++ strconv.Itoa coub.(ViewsCount) ++ nl
  ++ "Recoubs: " ++ strconv.Itoa coub.(RecoubsCount) ++ nl
  ++ "Source: " ++ coub.(ExternalDownload).(Sprintf_v) ++ nl)%string.

(** ** Further observations on traces *)

Definition WaitGroup_eqb (a b : WaitGroup) : bool :=
  match a, b with
  | wg_ReadCoub, wg_ReadCoub => true
  | wg_DownloadCoubData, wg_DownloadCoubData => true
  | _, _ => false
  end.


Definition dones (wg : WaitGroup) (t : trace) : nat :=
  List.length (filter (fun e => match e with
                                | EDone w => WaitGroup_eqb w wg
                                | _ => false
                                end) t).


(** The time a trace spends in [time.Sleep] itself, in nanoseconds. *)
Definition slept (t : trace) : Z :=
  fold_right Z.add 0%Z
    (flat_map (fun e => match e with ESleep d => [d] | _ => [] end) t).

(** The lines a trace hands to the logger itself, in order. *)
Definition logged (t : trace) : list string :=
  flat_map (fun e => match e with ELog msg => [msg] | _ => [] end) t.

(** Neither the trace nor a goroutine it starts indexes out of range. *)
Fixpoint no_panic_event (e : event) : bool :=
  match e with
  | EPanic => false
  | EGo body => forallb no_panic_event body
  | _ => true
  end.

Definition no_panic (t : trace) : bool := forallb no_panic_event t.

(** The trace closes a file. *)
Definition has_close (t : trace) : bool :=
  existsb (fun e => match e with EFileClose _ => true | _ => false end) t.

(** The strings the tag loop of [CreateCoubInfoFiles] writes. *)
Fixpoint tag_lines (tags : list Tag) : list string :=
  match tags with
  | [] => []
  | tag :: rest =>
      match rest with
      | [] => [(tag.(TagTitle) ++ nl)%string]
      | _ => (tag.(TagTitle) ++ ", ")%string :: tag_lines rest
      end
  end.

(** The writes to [info.txt] whose error [CreateCoubInfoFiles] checks:
    the first five lines and the tags; not the [Source] line and not the
    label [Tags: ]. *)
Definition checked_lines (coub : Coub) : list string :=
  [ ("Title: " ++ coub.(Title) ++ nl)%string;
    ("Created At: " ++ coub.(CreatedAt).(Time_String) ++ nl)%string;
    ("Duration: " ++ coub.(Duration).(Sprintf_2f) ++ nl)%string;
    ("Views: " ++ strconv.Itoa coub.(ViewsCount) ++ nl)%string;
    ("Recoubs: " ++ strconv.Itoa coub.(RecoubsCount) ++ nl)%string ]
  ++ tag_lines coub.(Tags).

(** The fetches of a rendition set, and the fetches of the three groups
    of a clip: its frames, its images, its files. *)
Definition group_fetches (W : World) (filepath : string) (vs : VersionSet)
  : list (string * string) :=
  downloads (calls (download_versions W filepath vs.(Template) vs.(Versions))).



(** The fetches and the pauses of a trace, in order. *)
Inductive beat : Type :=
| Fetch (dst url : string)
| Pause (d : Z).

Definition pace (t : trace) : list beat :=
  flat_map (fun e => match e with
                     | EDownloadFile dst url => [Fetch dst url]
                     | ESleep d => [Pause d]
                     | _ => []
                     end) t.

(** Each of the fetches, followed by a pause of [d] when it succeeds. *)
Definition paced (W : World) (d : Z) (fetches : list (string * string))
  : list beat :=
  flat_map (fun f => Fetch (fst f) (snd f)
                     :: match W.(w_DownloadFile) (fst f) (snd f) with
                        | None => [Pause d]
                        | Some _ => []
                        end) fetches.

(** The seven fetches of the file group with a pause of [d] after each
    of the first five. *)
Definition file_pace (d : Z) (fetches : list (string * string)) : list beat :=
  flat_map (fun f => [Fetch (fst f) (snd f); Pause d]) (firstn 5 fetches)
  ++ map (fun f => Fetch (fst f) (snd f)) (skipn 5 fetches).


(** The names under which [DownloadFileVersions] logs its seven fetches. *)
Definition file_labels : list string :=
  [ "Medium Quality HTML5 Video"; "High Quality HTML5 Video";
    "Higher Quality HTML5 Video"; "Higher Quality HTML5 Audio";
    "Medium Quality HTML5 Audio"; "Default Share File";
    "(renamed) Default Share File" ].

(** The log line of one fetch of the file group: none when it succeeds. *)
Definition fetch_log (W : World) (title : string)
  (f : string * (string * string)) : list string :=
  match W.(w_DownloadFile) (fst (snd f)) (snd (snd f)) with
  | Some e => [("Error downloading " ++ fst f ++ " for: " ++ title
                ++ ": " ++ Error e)%string]
  | None => []
  end.

(** ** A sample world

    Concrete clips and a concrete outside world, on which the program is
    run in the examples. *)

Module Sample.

Fixpoint has_slash (s : string) : bool :=
  match s with
  | EmptyString => false
  | String c s' => Ascii.eqb c "/" || has_slash s'
  end.

(** Modelled from the spec: [FileNameFromURL] is not part of
    [coub-dl.go]; the name of a fetched file is the last path segment of
    its URL. *)
Fixpoint last_segment (s : string) : string :=
  match s with
  | EmptyString => EmptyString
  | String c s' =>
      if has_slash s' then last_segment s'
      else if Ascii.eqb c "/" then s' else s
  end.

Definition renditions : FileVersions_t :=
  {| HTML5_Video_Med_URL := "https://cdn.example/v/med.mp4";
     HTML5_Video_High_URL := "https://cdn.example/v/high.mp4";
     HTML5_Video_Higher_URL := "https://cdn.example/v/higher.mp4";
     HTML5_Audio_High_URL := "https://cdn.example/a/high.mp3";
     HTML5_Audio_Med_URL := "https://cdn.example/a/med.mp3";
     Share_Default := "https://cdn.example/share/seg.mp4" |}.

Definition clip (title type : string) (tags : list string) : Coub :=
  {| Title := title;
     Type_ := type;
     CreatedAt := {| Time_String := "2016-05-01 10:00:00 +0000 UTC" |};
     Duration := {| Sprintf_2f := "12.35" |};
     ViewsCount := 10;
     RecoubsCount := 2;
     ExternalDownload := {| Sprintf_v := "false" |};
     Tags := map (fun t => {| TagTitle := t |}) tags;
     FileVersions := renditions;
     ImageVersions :=
       {| Template := "https://img.example/%{version}/x.jpg";
          Versions := ["000"; "100"] |};
     FirstFrameVersions :=
       {| Template := "https://img.example/first/%{version}.jpg";
          Versions := ["big"; "med"; "small"] |} |}.

(** What can go wrong in a run. *)
Record faults : Type := {
  decode_error : goerror;
  mkdir_error : string -> goerror;          (* by clip title *)
  writefile_error : string -> goerror;      (* by file name *)
  create_error : string -> goerror;         (* by file name *)
  fetch_error : string -> goerror           (* by URL *)
}.

Definition no_faults : faults :=
  {| decode_error := None;
     mkdir_error := fun _ => None;
     writefile_error := fun _ => None;
     create_error := fun _ => None;
     fetch_error := fun _ => None |}.

(** Modelled from the spec: [CreateCoubDir] is not part of
    [coub-dl.go]; the directory of a clip is named from its title, under
    the root directory. *)
Definition clip_dir (rootdir : string) (coub : Coub) : string :=
  rootdir ++ "/" ++ coub.(Title).

(** The world in which the catalogue file decodes to [catalog] and the
    operations fail as [f] says. *)
Definition world (catalog : list Coub) (f : faults) : World :=
  {| w_Open := fun _ => None;
     w_Decode := fun _ => (catalog, f.(decode_error));
     w_MarshalIndent := fun coub => ("{ title: " ++ coub.(Title) ++ " }")%string;
     w_WriteFile := fun name _ => f.(writefile_error) name;
     w_Create := f.(create_error);
     w_WriteString := fun _ _ => None;
     w_Close := fun _ => None;
     w_CreateCoubDir := fun rootdir coub =>
       (clip_dir rootdir coub, f.(mkdir_error) coub.(Title));
     w_DownloadFile := fun _ url => f.(fetch_error) url;
     w_FileNameFromURL := last_segment;
     w_schedule := fun _ _ => [] |}.

Definition cat : Coub := clip "Cat" "Coub::Simple" ["funny"; "cat"].
Definition dog : Coub := clip "Dog" "Coub::Simple" [].
Definition padded : Coub := clip " Cat " "Coub::Simple" [].
Definition repost : Coub := clip "Seen elsewhere" "Coub::Recoub" ["meme"].

(** A catalogue of six clips of the user's own. *)
Definition six : list Coub :=
  map (fun t => clip t "Coub::Simple" []) ["c1"; "c2"; "c3"; "c4"; "c5"; "c6"].

Definition syntax_error : error :=
  ErrExternal "invalid character 'o' in literal null (expecting 'u')".

Definition type_error : error :=
  ErrExternal
    "json: cannot unmarshal number into Go struct field Coub.title of type string".

(** The record [Decode] leaves for an entry whose title it could not
    store. *)
Definition untitled : Coub := clip EmptyString "Coub::Simple" [].

Definition permission_denied (name : string) : error :=
  ErrExternal ("open " ++ name ++ ": permission denied").

Definition not_found : error := ErrExternal "404 Not Found".

(** A world whose catalogue files cannot be opened. *)
Definition with_Open (W : World) (answer : string -> goerror) : World :=
  {| w_Open := answer;
     w_Decode := W.(w_Decode);
     w_MarshalIndent := W.(w_MarshalIndent);
     w_WriteFile := W.(w_WriteFile);
     w_Create := W.(w_Create);
     w_WriteString := W.(w_WriteString);
     w_Close := W.(w_Close);
     w_CreateCoubDir := W.(w_CreateCoubDir);
     w_DownloadFile := W.(w_DownloadFile);
     w_FileNameFromURL := W.(w_FileNameFromURL);
     w_schedule := W.(w_schedule) |}.

(** A world in which writes to an open file fail as [answer] says. *)
Definition with_WriteString (W : World)
  (answer : string -> string -> goerror) : World :=
  {| w_Open := W.(w_Open);
     w_Decode := W.(w_Decode);
     w_MarshalIndent := W.(w_MarshalIndent);
     w_WriteFile := W.(w_WriteFile);
     w_Create := W.(w_Create);
     w_WriteString := answer;
     w_Close := W.(w_Close);
     w_CreateCoubDir := W.(w_CreateCoubDir);
     w_DownloadFile := W.(w_DownloadFile);
     w_FileNameFromURL := W.(w_FileNameFromURL);
     w_schedule := W.(w_schedule) |}.

(** A world in which the accesses to [err] are made in the order
    [schedule] in every call of [DownloadCoubData]. *)
Definition with_schedule (W : World) (schedule : list thread) : World :=
  {| w_Open := W.(w_Open);
     w_Decode := W.(w_Decode);
     w_MarshalIndent := W.(w_MarshalIndent);
     w_WriteFile := W.(w_WriteFile);
     w_Create := W.(w_Create);
     w_WriteString := W.(w_WriteString);
     w_Close := W.(w_Close);
     w_CreateCoubDir := W.(w_CreateCoubDir);
     w_DownloadFile := W.(w_DownloadFile);
     w_FileNameFromURL := W.(w_FileNameFromURL);
     w_schedule := fun _ _ => schedule |}.

(** The image group has failed and assigns its error between
    [return nil] and the read of the result; every goroutine reads back
    what it has assigned itself. *)
Definition late_store : list thread :=
  [ Branch Frames; Branch Frames; Branch Files; Branch Files;
    Coordinator; Branch Images; Coordinator;
    Branch Images; Branch Images ].

(** The image group has failed; between its two reads of [err] the
    goroutine of the frames assigns nil. *)
Definition torn_log : list thread :=
  [ Branch Images; Branch Images; Branch Frames; Branch Images ].

(** The first image of a clip of [clip] cannot be fetched. *)
Definition broken_image : faults :=
  {| decode_error := None;
     mkdir_error := fun _ => None;
     writefile_error := fun _ => None;
     create_error := fun _ => None;
     fetch_error := fun url =>
       if String.eqb url "https://img.example/000/x.jpg"
       then Some not_found else None |}.

Definition no_such_file (name : string) : error :=
  ErrExternal ("open " ++ name ++ ": no such file or directory").

Definition disk_full : error := ErrExternal "no space left on device".

End Sample.

(** * Properties *)

(** ** The Go library functions on samples *)

Example TrimSpace_ex1 : strings.TrimSpace "  Cat	 " = "Cat".
Proof. reflexivity. Qed.

Example TrimSpace_ex2 :
  strings.TrimSpace (strings.bytes [226; 128; 131] ++ "a b" ++ strings.bytes [194; 160; 10])
  = "a b".
Proof. reflexivity. Qed.

Example Replace_ex1 :
  strings.ReplaceAll "a%{version}b%{version}" "%{version}" "xy" = "axybxy".
Proof. reflexivity. Qed.

Example Itoa_ex1 : strconv.Itoa 10 = "10" /\ strconv.Itoa 0 = "0" /\ strconv.Itoa (-7) = "-7".
Proof. repeat split; reflexivity. Qed.

Example last_segment_ex1 :
  Sample.last_segment "https://cdn.example/path/seg.mp4" = "seg.mp4".
Proof. reflexivity. Qed.

(** ** Laws of the trace monad *)

Section MonadLaws.

Context {A B : Type}.

Lemma result_bind (m : M A) (k : A -> M B) :
  result (bind m k) = result (k (result m)).
Proof.
  unfold result, bind. destruct m as [a t1]. simpl.
  destruct (k a) as [b t2]. reflexivity.
Qed.

Lemma calls_bind (m : M A) (k : A -> M B) :
  calls (bind m k) = calls m ++ calls (k (result m)).
Proof.
  unfold result, calls, bind. destruct m as [a t1]. simpl.
  destruct (k a) as [b t2]. reflexivity.
Qed.

Lemma result_defer_Done (wg : WaitGroup) (m : M A) :
  result (defer_Done wg m) = result m.
Proof. unfold result, defer_Done. destruct m. reflexivity. Qed.

Lemma calls_defer_Done (wg : WaitGroup) (m : M A) :
  calls (defer_Done wg m) = calls m ++ [EDone wg].
Proof. unfold calls, defer_Done. destruct m. reflexivity. Qed.

End MonadLaws.

Lemma result_check (m k : M goerror) :
  result (check m k) = match result m with
                       | Some e => Some e
                       | None => result k
                       end.
Proof.
  unfold check. rewrite result_bind. destruct (result m); reflexivity.
Qed.

Lemma calls_check (m k : M goerror) :
  calls (check m k) = calls m ++ match result m with
                                 | Some _ => []
                                 | None => calls k
                                 end.
Proof.
  unfold check. rewrite calls_bind. destruct (result m); reflexivity.
Qed.

Lemma downloads_app (t1 t2 : trace) :
  downloads (t1 ++ t2) = downloads t1 ++ downloads t2.
Proof. apply flat_map_app. Qed.

Lemma dirs_requested_app (t1 t2 : trace) :
  dirs_requested (t1 ++ t2) = dirs_requested t1 ++ dirs_requested t2.
Proof. apply flat_map_app. Qed.

Lemma submitted_app (t1 t2 : trace) :
  submitted (t1 ++ t2) = submitted t1 ++ submitted t2.
Proof. apply flat_map_app. Qed.

Lemma schedule_app (t1 t2 : trace) :
  schedule (t1 ++ t2) = schedule t1 ++ schedule t2.
Proof. apply flat_map_app. Qed.

Lemma sequential_app (t1 t2 : trace) :
  sequential (t1 ++ t2) = sequential t1 && sequential t2.
Proof. apply forallb_app. Qed.

(** Rewriting a computation into its result and its calls. *)
Ltac run :=
  repeat (rewrite ?result_bind, ?calls_bind, ?result_check, ?calls_check,
            ?result_defer_Done, ?calls_defer_Done; cbn [result calls fst snd
            ret emit go log_Println log_Print fmt_Println time_Sleep]).

(** ** The file-rendition group *)

Lemma downloads_fetch_logged (W : World) (dst url what title : string) :
  downloads (calls (fetch_logged W dst url what title)) = [(dst, url)].
Proof.
  unfold fetch_logged, DownloadFile. run.
  destruct (w_DownloadFile W dst url); reflexivity.
Qed.

Lemma DownloadFileVersions_returns_nil
  (W : World) (wg : WaitGroup) (filepath : string) (coub : Coub) :
  result (DownloadFileVersions W wg filepath coub) = None.
Proof. unfold DownloadFileVersions. run. reflexivity. Qed.

Lemma DownloadFileVersions_downloads
  (W : World) (wg : WaitGroup) (filepath : string) (coub : Coub) :
  downloads (calls (DownloadFileVersions W wg filepath coub))
  = file_fetches W filepath coub.
Proof.
  unfold DownloadFileVersions. run.
  rewrite !downloads_app, !downloads_fetch_logged. reflexivity.
Qed.

(** C6: [DownloadFileVersions] fetches medium, high and higher video,
    high and medium audio, then the default share file under its derived
    name and under [<title>.mp4], in that order, whatever each fetch
    answers, and returns no error. *)
Theorem DownloadFileVersions_fetches_all_in_order
  (W : World) (wg : WaitGroup) (filepath : string) (coub : Coub) :
  result (DownloadFileVersions W wg filepath coub) = None /\
  downloads (calls (DownloadFileVersions W wg filepath coub))
  = file_fetches W filepath coub.
Proof.
  split.
  - apply DownloadFileVersions_returns_nil.
  - apply DownloadFileVersions_downloads.
Qed.

(** ** The image and frame groups *)

Section Versions.

Variable W : World.
Variables filepath template : string.

Local Abbreviation vf := (version_fetch W filepath template).
Local Abbreviation ok := (fun u => fetch_answer W filepath template u = None).

Lemma download_versions_cons (v : string) (rest : list string) :
  download_versions W filepath template (v :: rest)
  = check (DownloadFile W (fst (vf v)) (snd (vf v)))
      (bind (time_Sleep (Second * 1))
         (fun _ => download_versions W filepath template rest)).
Proof. reflexivity. Qed.

Lemma download_versions_all (versions : list string) :
  Forall ok versions ->
  result (download_versions W filepath template versions) = None /\
  downloads (calls (download_versions W filepath template versions))
  = map vf versions.
Proof.
  induction 1 as [|v rest Hv _ [IHr IHc]]; [split; reflexivity|].
  rewrite download_versions_cons. unfold DownloadFile. run.
  unfold fetch_answer in Hv. rewrite Hv.
  split; [exact IHr|].
  rewrite !downloads_app, IHc. cbn [map app]. destruct (vf v). reflexivity.
Qed.


Lemma download_versions_prefix (versions : list string) :
  exists n,
    downloads (calls (download_versions W filepath template versions))
    = firstn n (map vf versions).
Proof.
  induction versions as [|v rest [n IH]]; [exists 0; reflexivity|].
  rewrite download_versions_cons. unfold DownloadFile. run.
  destruct (w_DownloadFile W (fst (vf v)) (snd (vf v))).
  - exists 1. cbn [map app]. destruct (vf v). reflexivity.
  - exists (S n). rewrite !downloads_app, IH. cbn [map app]. destruct (vf v). reflexivity.
Qed.

Lemma download_versions_sequential (versions : list string) :
  sequential (calls (download_versions W filepath template versions)) = true.
Proof.
  induction versions as [|v rest IH]; [reflexivity|].
  rewrite download_versions_cons. unfold DownloadFile. run.
  destruct (w_DownloadFile W (fst (vf v)) (snd (vf v))).
  - reflexivity.
  - rewrite !sequential_app, IH. reflexivity.
Qed.

End Versions.

Lemma downloads_branch (announce failed title : string)
  (body : M goerror) (test message : goerror) :
  downloads (calls (branch announce failed title body test message))
  = downloads (calls body).
Proof.
  unfold branch. run. rewrite !downloads_app.
  destruct test as [e|]; [destruct message as [e'|]|];
    cbn [calls snd downloads flat_map app]; now rewrite app_nil_r.
Qed.

Lemma downloads_done (wg : WaitGroup) (t : trace) :
  downloads (t ++ [EDone wg]) = downloads t.
Proof. rewrite downloads_app. apply app_nil_r. Qed.

(** The three goroutines of the coordinator fetch what their groups
    fetch, each group for itself. *)
Lemma DownloadCoubData_branches (W : World) (PoolWG : WaitGroup)
  (rootdir : string) (coub : Coub) :
  map downloads (submitted (calls (DownloadCoubData W PoolWG rootdir coub)))
  = [ downloads (calls (DownloadFirstFrameVersions W wg_DownloadCoubData rootdir coub));
      downloads (calls (DownloadImageVersions W wg_DownloadCoubData rootdir coub));
      file_fetches W rootdir coub ].
Proof.
  unfold DownloadCoubData. run. rewrite !submitted_app.
  cbn [submitted flat_map app map].
  rewrite !downloads_branch.
  now rewrite DownloadFileVersions_downloads.
Qed.

(** What [DownloadCoubData] returns is what the read of its result
    sees. *)
Lemma result_DownloadCoubData (W : World) (PoolWG : WaitGroup)
  (rootdir : string) (coub : Coub) :
  result (DownloadCoubData W PoolWG rootdir coub)
  = returned (clip_race W rootdir coub).
Proof. unfold DownloadCoubData. run. reflexivity. Qed.

Section Race.

Variable results : group -> goerror.

Local Abbreviation sound s :=
  (held results s.(cell) /\ held results s.(returned) /\
   (forall g, held results (s.(test_saw) g)) /\
   (forall g, held results (s.(message_saw) g))).

Lemma held_update (f : group -> goerror) (g : group) (v : goerror) :
  (forall g', held results (f g')) -> held results v ->
  forall g', held results (update f g v g').
Proof. intros Hf Hv g'. unfold update. now destruct (group_eqb g g'). Qed.

Lemma race_step_sound (s : race) (th : thread) :
  sound s -> sound (race_step results s th).
Proof.
  intros [Hc [Hr [Ht Hm]]].
  destruct th as [g|]; cbn [race_step].
  - destruct (branch_pc s g) as [|[|[|n]]]; cbn;
      repeat split; auto using held_update.
    right. now exists g.
  - destruct (coordinator_pc s) as [|[|n]]; cbn; repeat split; auto.
    now left.
Qed.

Lemma race_fold_sound (schedule : list thread) :
  forall s, sound s -> sound (fold_left (race_step results) schedule s).
Proof.
  induction schedule as [|th schedule IH]; intros s Hs; [exact Hs|].
  cbn [fold_left]. now apply IH, race_step_sound.
Qed.

(** Whatever the schedule, each read of [err] sees nil or what one of
    the groups returned. *)
Lemma race_run_sound (schedule : list thread) :
  sound (race_run results schedule).
Proof.
  apply race_fold_sound. cbn. repeat split; try intro g; now left.
Qed.

Lemma race_step_ext (results' : group -> goerror) (s : race) (th : thread) :
  (forall g, results g = results' g) ->
  race_step results s th = race_step results' s th.
Proof.
  intro H. destruct th as [g|]; [|reflexivity].
  cbn [race_step]. now rewrite H.
Qed.

Lemma race_run_ext (results' : group -> goerror) (schedule : list thread) :
  (forall g, results g = results' g) ->
  race_run results schedule = race_run results' schedule.
Proof.
  intro H. unfold race_run. generalize race_start.
  induction (schedule ++ race_rest) as [|th l IH]; intro s; [reflexivity|].
  cbn [fold_left]. now rewrite IH, (race_step_ext results' s th H).
Qed.

(** When the threads make their accesses one after the other, each
    goroutine reads back what it has assigned and the function returns
    nil. *)
Lemma race_run_in_turn :
  let o := race_run results [] in
  returned o = None /\
  (forall g, test_saw o g = results g) /\
  (forall g, results g <> None -> message_saw o g = results g).
Proof.
  cbv zeta.
  rewrite (race_run_ext
             (fun g => match g with
                       | Frames => results Frames
                       | Images => results Images
                       | Files => results Files
                       end) [])
    by (intros [| |]; reflexivity).
  split; [|split; [intros g|intros g Hg]]; try destruct g;
    destruct (results Frames) as [e1|], (results Images) as [e2|],
      (results Files) as [e3|];
    try (vm_compute; reflexivity); now contradiction Hg.
Qed.

End Race.

(** Whatever the order of the accesses, [DownloadCoubData] returns nil
    or the error of its frame group or of its image group. *)
Lemma DownloadCoubData_result_held (W : World) (PoolWG : WaitGroup)
  (rootdir : string) (coub : Coub) :
  let r := result (DownloadCoubData W PoolWG rootdir coub) in
  r = None \/
  r = result (DownloadFirstFrameVersions W wg_DownloadCoubData rootdir coub) \/
  r = result (DownloadImageVersions W wg_DownloadCoubData rootdir coub).
Proof.
  cbv zeta. rewrite result_DownloadCoubData. unfold clip_race.
  destruct (race_run_sound (group_results W rootdir coub)
              (w_schedule W rootdir coub)) as [_ [[H|[g H]] _]];
    [now left|].
  destruct g; cbn [group_results] in H; auto.
  left. now rewrite H, DownloadFileVersions_returns_nil.
Qed.

(** It returns nil when the accesses are made thread after thread, and
    when no group fails. *)
Lemma DownloadCoubData_returns_nil_in_turn (W : World) (PoolWG : WaitGroup)
  (rootdir : string) (coub : Coub) :
  w_schedule W rootdir coub = [] ->
  result (DownloadCoubData W PoolWG rootdir coub) = None.
Proof.
  intro H. rewrite result_DownloadCoubData. unfold clip_race. rewrite H.
  apply race_run_in_turn.
Qed.

Lemma DownloadCoubData_returns_nil_without_failure (W : World)
  (PoolWG : WaitGroup) (rootdir : string) (coub : Coub) :
  result (DownloadFirstFrameVersions W wg_DownloadCoubData rootdir coub)
  = None ->
  result (DownloadImageVersions W wg_DownloadCoubData rootdir coub) = None ->
  result (DownloadCoubData W PoolWG rootdir coub) = None.
Proof.
  intros Hf Hi.
  destruct (DownloadCoubData_result_held W PoolWG rootdir coub)
    as [H|[H|H]]; cbv zeta in H; congruence.
Qed.



(** C9: each of the two groups fetches, for the versions of its set in
    the order of the manifest, the URL made by putting the version in
    place of the placeholder of the template: what it fetches is always
    an initial part of that sequence, all of it when no fetch fails, and
    the group starts no goroutine. *)
Theorem versions_fetched_in_manifest_order
  (W : World) (wg : WaitGroup) (filepath : string) (coub : Coub) :
  let img := coub.(ImageVersions) in
  let frm := coub.(FirstFrameVersions) in
  (exists n, downloads (calls (DownloadImageVersions W wg filepath coub))
             = firstn n (map (version_fetch W filepath img.(Template))
                           img.(Versions))) /\
  (exists n, downloads (calls (DownloadFirstFrameVersions W wg filepath coub))
             = firstn n (map (version_fetch W filepath frm.(Template))
                           frm.(Versions))) /\
  (no_failure W filepath img ->
   downloads (calls (DownloadImageVersions W wg filepath coub))
   = map (version_fetch W filepath img.(Template)) img.(Versions)) /\
  (no_failure W filepath frm ->
   downloads (calls (DownloadFirstFrameVersions W wg filepath coub))
   = map (version_fetch W filepath frm.(Template)) frm.(Versions)) /\
  sequential (calls (DownloadImageVersions W wg filepath coub)) = true /\
  sequential (calls (DownloadFirstFrameVersions W wg filepath coub)) = true /\
  map (version_url "https://img.example/%{version}/x.jpg") ["000"; "100"]
  = ["https://img.example/000/x.jpg"; "https://img.example/100/x.jpg"].
Proof.
  cbv zeta. unfold DownloadImageVersions, DownloadFirstFrameVersions.
  repeat split; run; rewrite ?downloads_done, ?sequential_app, ?andb_true_r.
  - apply download_versions_prefix.
  - apply download_versions_prefix.
  - intro H. now apply download_versions_all.
  - intro H. now apply download_versions_all.
  - apply download_versions_sequential.
  - apply download_versions_sequential.
Qed.

Lemma versions_fetched_in_manifest_order_witness :
  let W := Sample.world [] Sample.no_faults in
  downloads (calls (DownloadImageVersions W wg_DownloadCoubData "/data/Cat" Sample.cat))
  = [("/data/Cat/x.jpg", "https://img.example/000/x.jpg");
     ("/data/Cat/x.jpg", "https://img.example/100/x.jpg")] /\
  downloads (calls (DownloadFirstFrameVersions W wg_DownloadCoubData "/data/Cat" Sample.cat))
  = [("/data/Cat/big.jpg", "https://img.example/first/big.jpg");
     ("/data/Cat/med.jpg", "https://img.example/first/med.jpg");
     ("/data/Cat/small.jpg", "https://img.example/first/small.jpg")].
Proof.
  intro W.
  destruct (versions_fetched_in_manifest_order W wg_DownloadCoubData
              "/data/Cat" Sample.cat) as [_ [_ [Himg [Hfrm _]]]].
  split.
  - apply Himg. repeat constructor.
  - apply Hfrm. repeat constructor.
Defined.

(** ** The metadata files *)

Lemma string_app_assoc (a b c : string) : ((a ++ b) ++ c = a ++ b ++ c)%string.
Proof. induction a as [|x a IH]; cbn; [reflexivity | now rewrite IH]. Qed.

Lemma string_app_nil_r (a : string) : (a ++ EmptyString)%string = a.
Proof. induction a as [|x a IH]; cbn; [reflexivity | now rewrite IH]. Qed.

Lemma newlines_app (a b : string) :
  newlines (a ++ b) = newlines a + newlines b.
Proof. induction a as [|x a IH]; cbn; [reflexivity | rewrite IH; lia]. Qed.

Lemma newlines_concat (titles : list string) :
  Forall (fun t => newlines t = 0) titles ->
  newlines (String.concat ", " titles) = 0.
Proof.
  induction 1 as [|t rest Ht Hrest IH]; [reflexivity|].
  destruct rest as [|u rest]; [exact Ht|].
  change (String.concat ", " (t :: u :: rest))
    with (t ++ ", " ++ String.concat ", " (u :: rest))%string.
  rewrite !newlines_app, Ht, IH. reflexivity.
Qed.

Lemma written_app (W : World) (name : string) (t1 t2 : trace) :
  written W name (t1 ++ t2)
  = (written W name t1 ++ written W name t2)%string.
Proof.
  unfold written. rewrite flat_map_app.
  induction (flat_map _ t1) as [|x l IH]; cbn; [reflexivity|].
  now rewrite IH, string_app_assoc.
Qed.

Lemma written_WriteString (W : World) (name s : string) :
  W.(w_WriteString) name s = None ->
  written W name (calls (File_WriteString W (Some name) s)) = s.
Proof.
  intro H. cbn. rewrite String.eqb_refl, H. cbn. apply string_app_nil_r.
Qed.

(** What the tag loop appends when every write succeeds. *)
Lemma write_tags_written (W : World) (name : string) (n : nat)
  (tags : list Tag) :
  (forall s, W.(w_WriteString) name s = None) ->
  forall i, n = i + List.length tags ->
  result (write_tags W (Some name) n i tags) = None /\
  written W name (calls (write_tags W (Some name) n i tags))
  = match tags with
    | [] => EmptyString
    | _ => (String.concat ", " (map TagTitle tags) ++ nl)%string
    end.
Proof.
  intro Hw. induction tags as [|tag rest IH]; intros i Hn.
  - split; reflexivity.
  - cbn [write_tags]. run.
    destruct (IH (S i)) as [IHr IHc]; [cbn [List.length] in Hn; lia|].
    destruct (Z.eqb_spec (Z.of_nat i) (Z.of_nat n - 1)) as [Hlast|Hmore].
    + assert (rest = []) as ->
        by (destruct rest; [reflexivity | cbn [List.length] in Hn; lia]).
      cbn [File_WriteString]. run. rewrite Hw. split; [reflexivity|].
      rewrite written_app.
      change ([EWriteString name (TagTitle tag ++ nl)] ++ [])
        with (calls (File_WriteString W (Some name) (TagTitle tag ++ nl))).
      rewrite written_WriteString by apply Hw. cbn. apply string_app_nil_r.
    + destruct rest as [|tag' rest];
        [cbn [List.length] in Hn; lia|].
      cbn [File_WriteString]. run. rewrite Hw. split; [exact IHr|].
      rewrite written_app, IHc.
      change ([EWriteString name (TagTitle tag ++ ", ")] ++ [])
        with (calls (File_WriteString W (Some name) (TagTitle tag ++ ", "))).
      rewrite written_WriteString by apply Hw.
      change (String.concat ", " (map TagTitle (tag :: tag' :: rest)))
        with (TagTitle tag ++ ", "
              ++ String.concat ", " (map TagTitle (tag' :: rest)))%string.
      now rewrite !string_app_assoc.
Qed.

Lemma result_WriteString (W : World) (name s : string) :
  result (File_WriteString W (Some name) s) = W.(w_WriteString) name s.
Proof. reflexivity. Qed.

Lemma written_other (W : World) (name : string) (t : trace) :
  Forall (fun e => forall f s, e <> EWriteString f s) t ->
  written W name t = EmptyString.
Proof.
  induction 1 as [|e t He _ IH]; [reflexivity|].
  change (e :: t) with ([e] ++ t). rewrite written_app, IH.
  destruct e; try reflexivity. now destruct (He name0 s).
Qed.

Lemma CreateCoubInfoFiles_written (W : World) (dir : string) (coub : Coub) :
  W.(w_WriteFile) (dir ++ "/metadata.json") (W.(w_MarshalIndent) coub) = None ->
  W.(w_Create) (dir ++ "/info.txt") = None ->
  (forall s, W.(w_WriteString) (dir ++ "/info.txt") s = None) ->
  written W (dir ++ "/info.txt") (calls (CreateCoubInfoFiles W dir coub))
  = (info_header coub ++ "Tags: "
     ++ match coub.(Tags) with
        | [] => EmptyString
        | _ => String.concat ", " (map TagTitle coub.(Tags)) ++ nl
        end)%string.
Proof.
  intros Hwf Hcr Hw.
  destruct (write_tags_written W (dir ++ "/info.txt") (List.length coub.(Tags))
              coub.(Tags) Hw 0 eq_refl) as [Htr Htc].
  unfold CreateCoubInfoFiles, json_MarshalIndent, ioutil_WriteFile, os_Create.
  run. rewrite Hwf. run. rewrite Hcr. run.
  rewrite !result_WriteString, !Hw, Htr.
  rewrite !written_app, Htc, !written_WriteString by apply Hw.
  cbn [File_Close]. run. destruct (w_Close W (dir ++ "/info.txt")).
  all: rewrite !written_other by (repeat constructor; discriminate).
  all: unfold info_header.
  all: repeat first [rewrite !string_app_assoc | progress cbn [String.append]].
  all: now rewrite ?string_app_nil_r.
Qed.

(** C10: when the files are created and written without error, the text
    of [info.txt] is the six fixed lines followed by [Tags: ]; for a clip
    without tags the text ends there, with no line feed; for a clip with
    tags it goes on with the tag titles, separated by a comma and a
    space, and one line feed, the only one of that line when no title
    contains one. *)
Theorem info_txt_tags_line (W : World) (dir : string) (coub : Coub) :
  W.(w_WriteFile) (dir ++ "/metadata.json") (W.(w_MarshalIndent) coub) = None ->
  W.(w_Create) (dir ++ "/info.txt") = None ->
  (forall s, W.(w_WriteString) (dir ++ "/info.txt") s = None) ->
  let text :=
    written W (dir ++ "/info.txt") (calls (CreateCoubInfoFiles W dir coub)) in
  let titles := map TagTitle coub.(Tags) in
  (coub.(Tags) = [] ->
   text = (info_header coub ++ "Tags: ")%string) /\
  (coub.(Tags) <> [] ->
   text = (info_header coub
           ++ "Tags: " ++ String.concat ", " titles ++ nl)%string /\
   (Forall (fun t => newlines t = 0) titles ->
    newlines ("Tags: " ++ String.concat ", " titles ++ nl) = 1)).
Proof.
  intros Hwf Hcr Hw text titles. subst text titles.
  rewrite CreateCoubInfoFiles_written by assumption.
  split.
  - intros ->. now rewrite string_app_nil_r.
  - intro Hne. split.
    + destruct (Tags coub); [contradiction | reflexivity].
    + intro Hnl. rewrite !newlines_app, newlines_concat by exact Hnl.
      reflexivity.
Qed.

Lemma info_txt_tags_line_witness :
  let W := Sample.world [] Sample.no_faults in
  written W "/data/Dog/info.txt"
    (calls (CreateCoubInfoFiles W "/data/Dog" Sample.dog))
  = (info_header Sample.dog ++ "Tags: ")%string /\
  written W "/data/Cat/info.txt"
    (calls (CreateCoubInfoFiles W "/data/Cat" Sample.cat))
  = (info_header Sample.cat ++ "Tags: funny, cat" ++ nl)%string.
Proof.
  intro W. split.
  - apply (info_txt_tags_line W "/data/Dog" Sample.dog);
      solve [reflexivity | intros; reflexivity].
  - apply (info_txt_tags_line W "/data/Cat" Sample.cat);
      solve [reflexivity | intros; reflexivity | discriminate].
Defined.


(** ** Preparation of a clip *)

Lemma metadata_dumps_app (t1 t2 : trace) :
  metadata_dumps (t1 ++ t2) = metadata_dumps t1 ++ metadata_dumps t2.
Proof. apply flat_map_app. Qed.

Lemma info_only_app (t1 t2 : trace) :
  info_only (t1 ++ t2) = info_only t1 && info_only t2.
Proof. apply forallb_app. Qed.

Lemma info_only_WriteString (W : World) (f : File) (s : string) :
  info_only (calls (File_WriteString W f s)) = true.
Proof. destruct f; reflexivity. Qed.

Lemma info_only_Close (W : World) (f : File) :
  info_only (calls (File_Close W f)) = true.
Proof. destruct f; reflexivity. Qed.

Lemma info_only_write_tags (W : World) (f : File) (n : nat) (tags : list Tag) :
  forall i, info_only (calls (write_tags W f n i tags)) = true.
Proof.
  induction tags as [|tag rest IH]; intro i; [reflexivity|].
  cbn [write_tags]. run. rewrite info_only_app.
  destruct (Z.of_nat i =? Z.of_nat n - 1)%Z;
    rewrite info_only_WriteString;
    match goal with |- context [match ?r with _ => _ end] => destruct r end;
    now rewrite ?IH.
Qed.

(** [CreateCoubInfoFiles] writes [metadata.json] in one piece and then
    works on [info.txt] only. *)
Lemma CreateCoubInfoFiles_shape (W : World) (dir : string) (coub : Coub) :
  exists t,
    calls (CreateCoubInfoFiles W dir coub)
    = EWriteFile (dir ++ "/metadata.json") (W.(w_MarshalIndent) coub) :: t /\
    info_only t = true.
Proof.
  unfold CreateCoubInfoFiles, json_MarshalIndent, ioutil_WriteFile, os_Create.
  run. rewrite app_nil_l, app_nil_r. eexists. split; [reflexivity|].
  destruct (w_WriteFile W _ _); [reflexivity|].
  run.
  assert (Hrest : forall r (k : trace),
             info_only k = true ->
             info_only match r : goerror with Some _ => [] | None => k end = true)
    by (intros [e|] k Hk; [reflexivity | exact Hk]).
  destruct (w_Create W _); run.
  all: rewrite !info_only_app, !info_only_WriteString;
    cbn [andb info_only forallb app snd].
  all: repeat (apply Hrest; rewrite ?info_only_app, ?info_only_WriteString,
                 ?info_only_write_tags, ?info_only_Close; cbn [andb]).
  all: reflexivity.
Qed.

Lemma info_only_quiet (t : trace) :
  info_only t = true ->
  dirs_requested t = [] /\ submitted t = [] /\ schedule t = [] /\
  metadata_dumps t = [].
Proof.
  induction t as [|e t IH]; [now repeat split|].
  cbn [info_only forallb]. intros [He Ht]%andb_prop.
  destruct (IH Ht) as [Hd [Hs [Hc Hm]]].
  change (e :: t) with ([e] ++ t).
  rewrite dirs_requested_app, submitted_app, schedule_app, metadata_dumps_app,
    Hd, Hs, Hc, Hm.
  destruct e; try discriminate He; now repeat split.
Qed.

(** The preparation of a clip requests no directory, starts no
    goroutine, waits at no barrier, and dumps the clip once. *)
Lemma CreateCoubInfoFiles_quiet (W : World) (dir : string) (coub : Coub) :
  dirs_requested (calls (CreateCoubInfoFiles W dir coub)) = [] /\
  submitted (calls (CreateCoubInfoFiles W dir coub)) = [] /\
  schedule (calls (CreateCoubInfoFiles W dir coub)) = [] /\
  metadata_dumps (calls (CreateCoubInfoFiles W dir coub))
  = [((dir ++ "/metadata.json")%string, W.(w_MarshalIndent) coub)].
Proof.
  destruct (CreateCoubInfoFiles_shape W dir coub) as [t [-> Ht]].
  destruct (info_only_quiet t Ht) as [Hd [Hs [Hc Hm]]].
  change (?e :: t) with ([e] ++ t).
  rewrite dirs_requested_app, submitted_app, schedule_app, metadata_dumps_app,
    Hd, Hs, Hc, Hm.
  now repeat split.
Qed.

(** ** Loading the catalogue *)

Lemma fold_keep_non_recoub (l acc : list Coub) :
  fold_left keep_non_recoub l acc = acc ++ filter non_recoub l.
Proof.
  revert acc. induction l as [|c l IH]; intro acc; cbn [fold_left filter].
  - now rewrite app_nil_r.
  - rewrite IH. unfold keep_non_recoub, non_recoub.
    destruct (negb _); [now rewrite <- app_assoc | reflexivity].
Qed.

Lemma result_GetNonRecoubs (W : World) (dir user : string) :
  result (GetNonRecoubs W dir user)
  = match W.(w_Open) (catalog_path dir user) with
    | Some e => ([], Some e)
    | None => (filter non_recoub (fst (W.(w_Decode) (catalog_path dir user))), None)
    end.
Proof.
  unfold GetNonRecoubs, os_Open, catalog_path. run.
  destruct (w_Open W _); [reflexivity|]. run. cbn [json_Decode]. run.
  destruct (w_Decode W _) as [tmpCoubs derr]. cbn [File_Close]. run.
  now rewrite fold_keep_non_recoub.
Qed.

Lemma calls_GetNonRecoubs (W : World) (dir user : string) :
  calls (GetNonRecoubs W dir user)
  = match W.(w_Open) (catalog_path dir user) with
    | Some e => [EOpen (catalog_path dir user)]
    | None => [EOpen (catalog_path dir user); EDecode (catalog_path dir user);
               EFileClose (catalog_path dir user)]
    end.
Proof.
  unfold GetNonRecoubs, os_Open, catalog_path. run.
  destruct (w_Open W _); [reflexivity|]. run. cbn [json_Decode]. run.
  destruct (w_Decode W _) as [tmpCoubs derr]. cbn [File_Close]. run.
  reflexivity.
Qed.

(** ** The submission loop *)

Section Loop.

Variable W : World.
Variable wg : WaitGroup.
Variable rootdir : string.
Variable coubs : list Coub.

Local Abbreviation outdir c := (fst (W.(w_CreateCoubDir) rootdir c)).

Lemma result_submit_loop_cons (i : nat) (c0 : Coub) (rest : list Coub) :
  result (submit_loop W wg rootdir coubs i (c0 :: rest))
  = match snd (W.(w_CreateCoubDir) rootdir (trimmed c0)) with
    | Some e => Some e
    | None =>
        match result (CreateCoubInfoFiles W (outdir (trimmed c0)) (trimmed c0)) with
        | Some e => Some e
        | None => result (submit_loop W wg rootdir coubs (S i) rest)
        end
    end.
Proof.
  cbn [submit_loop]. fold (trimmed c0). unfold CreateCoubDir. run.
  destruct (w_CreateCoubDir W rootdir (trimmed c0)) as [dir [e|]];
    [reflexivity|].
  run. destruct (result (CreateCoubInfoFiles W dir (trimmed c0)));
    [reflexivity|].
  destruct (Nat.eqb (i mod 5) 0); run; reflexivity.
Qed.

Lemma calls_submit_loop_cons (i : nat) (c0 : Coub) (rest : list Coub) :
  calls (submit_loop W wg rootdir coubs i (c0 :: rest))
  = [ELog ("Processing Coub: " ++ Title (trimmed c0));
     ECreateCoubDir rootdir (trimmed c0)]
    ++ match snd (W.(w_CreateCoubDir) rootdir (trimmed c0)) with
       | Some _ => []
       | None =>
           calls (CreateCoubInfoFiles W (outdir (trimmed c0)) (trimmed c0))
           ++ match result (CreateCoubInfoFiles W (outdir (trimmed c0))
                              (trimmed c0)) with
              | Some _ => []
              | None =>
                  submission W wg coubs (outdir (trimmed c0)) i
                  ++ calls (submit_loop W wg rootdir coubs (S i) rest)
              end
       end.
Proof.
  cbn [submit_loop]. fold (trimmed c0).
  unfold CreateCoubDir, submission. run.
  destruct (w_CreateCoubDir W rootdir (trimmed c0)) as [dir [e|]];
    [reflexivity|].
  run. destruct (result (CreateCoubInfoFiles W dir (trimmed c0)));
    [now rewrite !app_nil_r|].
  destruct (Nat.eqb (i mod 5) 0); run; cbn [app]; reflexivity.
Qed.


Lemma download_task_nth (dir : string) (i : nat) (c : Coub) :
  nth_error coubs i = Some c ->
  download_task W wg coubs dir i = download_task W wg [c] dir 0.
Proof. unfold download_task. now intros ->. Qed.

Lemma nth_error_middle (pre : list Coub) (c : Coub) (rest : list Coub) :
  nth_error (pre ++ c :: rest) (List.length pre) = Some c.
Proof. induction pre; [reflexivity | assumption]. Qed.

Lemma loop_schedule_cons (i n : nat) :
  loop_schedule i (S n)
  = (if Nat.eqb (i mod 5) 0 then [Submit; Barrier] else [Submit])
    ++ loop_schedule (S i) n.
Proof. reflexivity. Qed.

Lemma schedule_submission (dir : string) (i : nat) :
  schedule (submission W wg coubs dir i)
  = if Nat.eqb (i mod 5) 0 then [Submit; Barrier] else [Submit].
Proof. unfold submission. now destruct (Nat.eqb (i mod 5) 0). Qed.

Lemma submitted_submission (dir : string) (i : nat) :
  submitted (submission W wg coubs dir i)
  = [calls (download_task W wg coubs dir i)].
Proof. unfold submission. now destruct (Nat.eqb (i mod 5) 0). Qed.

Lemma dirs_requested_submission (dir : string) (i : nat) :
  dirs_requested (submission W wg coubs dir i) = [].
Proof. unfold submission. now destruct (Nat.eqb (i mod 5) 0). Qed.

Lemma metadata_dumps_submission (dir : string) (i : nat) :
  metadata_dumps (submission W wg coubs dir i) = [].
Proof. unfold submission. now destruct (Nat.eqb (i mod 5) 0). Qed.

(** When every clip is prepared without error the loop runs to its
    end: it requests the directories of the trimmed clips in order,
    dumps each of them, starts one download per clip, on the clip as it
    stands in the slice, and follows [loop_schedule]. *)
Lemma submit_loop_all_prepared (rest : list Coub) :
  Forall (fun c => prepares W rootdir (trimmed c)) rest ->
  forall pre, coubs = pre ++ rest ->
  result (submit_loop W wg rootdir coubs (List.length pre) rest) = None /\
  dirs_requested (calls (submit_loop W wg rootdir coubs (List.length pre) rest))
  = map trimmed rest /\
  submitted (calls (submit_loop W wg rootdir coubs (List.length pre) rest))
  = map (clip_download W wg rootdir) rest /\
  metadata_dumps (calls (submit_loop W wg rootdir coubs (List.length pre) rest))
  = map (clip_dump W rootdir) rest /\
  schedule (calls (submit_loop W wg rootdir coubs (List.length pre) rest))
  = loop_schedule (List.length pre) (List.length rest).
Proof.
  induction 1 as [|c0 rest [Hdir Hinfo] _ IH]; intros pre Hcoubs.
  - now repeat split.
  - rewrite result_submit_loop_cons, calls_submit_loop_cons.
    rewrite Hdir, Hinfo.
    destruct (IH (pre ++ [c0])) as [IHr [IHd [IHs [IHm IHc]]]];
      [now rewrite <- app_assoc|].
    rewrite length_app, Nat.add_1_r in IHr, IHd, IHs, IHm, IHc.
    destruct (CreateCoubInfoFiles_quiet W (outdir (trimmed c0)) (trimmed c0))
      as [Qd [Qs [Qc Qm]]].
    split; [exact IHr|].
    rewrite !dirs_requested_app, !submitted_app, !schedule_app,
      !metadata_dumps_app.
    rewrite Qd, Qs, Qc, Qm, IHd, IHs, IHc, IHm, schedule_submission,
      submitted_submission, dirs_requested_submission,
      metadata_dumps_submission.
    rewrite (download_task_nth _ _ c0)
      by (rewrite Hcoubs; apply nth_error_middle).
    cbn [List.length]. rewrite loop_schedule_cons.
    now repeat split.
Qed.


(** Between two barriers the loop submits at most five clips. *)
Lemma submit_loop_peak (rest : list Coub) :
  forall i r, r <= (i + 4) mod 5 ->
  peak r (schedule (calls (submit_loop W wg rootdir coubs i rest))) <= 5.
Proof.
  induction rest as [|c0 rest IH]; intros i r Hr.
  { cbn. pose proof (Nat.mod_upper_bound (i + 4) 5). lia. }
  assert (Hr5 : r <= 4) by (pose proof (Nat.mod_upper_bound (i + 4) 5); lia).
  rewrite calls_submit_loop_cons.
  destruct (CreateCoubInfoFiles_quiet W (outdir (trimmed c0)) (trimmed c0))
    as [_ [_ [Qc _]]].
  destruct (snd (w_CreateCoubDir W rootdir (trimmed c0)));
    [cbn; lia|].
  rewrite !schedule_app, Qc.
  destruct (result (CreateCoubInfoFiles W _ _)); [cbn; lia|].
  rewrite !schedule_app, schedule_submission.
  cbn [schedule flat_map app].
  destruct (Nat.eqb_spec (i mod 5) 0) as [Hi|Hi]; cbn [app peak].
  - specialize (IH (S i) 0 ltac:(lia)). lia.
  - assert (S r <= (S i + 4) mod 5).
    { replace (S i + 4) with (i + 1 * 5) by lia. rewrite Nat.Div0.mod_add.
      assert ((i + 4) mod 5 = i mod 5 - 1); [|lia].
      pose proof (Nat.mod_upper_bound i 5 ltac:(lia)).
      replace (i + 4) with (i mod 5 - 1 + (1 + i / 5) * 5)
        by (pose proof (Nat.div_mod_eq i 5); lia).
      rewrite Nat.Div0.mod_add. apply Nat.mod_small. lia. }
    specialize (IH (S i) (S r) H). lia.
Qed.

End Loop.

(** ** ReadCoub *)

Lemma peak_final_barrier (s : list step) :
  forall r, peak r s <= 5 -> peak r (s ++ [Barrier]) <= 5.
Proof.
  induction s as [|[|] s IH]; intros r Hr; cbn [app peak] in *.
  - lia.
  - specialize (IH (S r)). lia.
  - specialize (IH 0). lia.
Qed.

Section Run.

Variable W : World.
Variables rootdir user : string.

Local Abbreviation kept :=
  (filter non_recoub (fst (W.(w_Decode) (catalog_path rootdir user)))).

Local Abbreviation total :=
  (ELog ("Total Coubs to process: "
         ++ strconv.Itoa (Z.of_nat (List.length kept)))).

Lemma result_ReadCoub :
  result (ReadCoub W rootdir user)
  = match W.(w_Open) (catalog_path rootdir user) with
    | Some e => Some e
    | None => result (submit_loop W wg_ReadCoub rootdir kept 0 kept)
    end.
Proof.
  unfold ReadCoub. run. rewrite result_GetNonRecoubs.
  destruct (w_Open W _); [reflexivity|]. run.
  now destruct (result (submit_loop _ _ _ _ _ _)).
Qed.

Lemma calls_ReadCoub :
  calls (ReadCoub W rootdir user)
  = calls (GetNonRecoubs W rootdir user)
    ++ match W.(w_Open) (catalog_path rootdir user) with
       | Some _ => []
       | None =>
           [total]
           ++ calls (submit_loop W wg_ReadCoub rootdir kept 0 kept)
           ++ match result (submit_loop W wg_ReadCoub rootdir kept 0 kept) with
              | Some _ => []
              | None => [EWait wg_ReadCoub; ELog "All found coubs downloaded"]
              end
       end.
Proof.
  unfold ReadCoub. run. rewrite result_GetNonRecoubs.
  destruct (w_Open W _); [reflexivity|]. run.
  now destruct (result (submit_loop _ _ _ _ _ _)).
Qed.

Lemma GetNonRecoubs_quiet :
  dirs_requested (calls (GetNonRecoubs W rootdir user)) = [] /\
  submitted (calls (GetNonRecoubs W rootdir user)) = [] /\
  schedule (calls (GetNonRecoubs W rootdir user)) = [] /\
  metadata_dumps (calls (GetNonRecoubs W rootdir user)) = [].
Proof.
  rewrite calls_GetNonRecoubs. now destruct (w_Open W _).
Qed.


(** The loop never has more than five downloads outstanding. *)
Lemma ReadCoub_peak :
  peak 0 (schedule (calls (ReadCoub W rootdir user))) <= 5.
Proof.
  rewrite calls_ReadCoub, schedule_app.
  destruct GetNonRecoubs_quiet as [_ [_ [-> _]]]. rewrite app_nil_l.
  destruct (w_Open W _); [cbn; lia|].
  rewrite !schedule_app. change (schedule [total]) with (@nil step).
  rewrite app_nil_l.
  pose proof (submit_loop_peak W wg_ReadCoub rootdir kept kept 0 0
                ltac:(cbn; lia)) as Hpeak.
  destruct (result (submit_loop _ _ _ _ _ _)).
  - now rewrite app_nil_r.
  - now apply peak_final_barrier.
Qed.

End Run.

(** ** Errors of the preparation *)


(** When [info.txt] cannot be created the error is printed, and the
    function goes on to write to the nil file: it returns the error of
    that write. *)
Lemma CreateCoubInfoFiles_Create_error (W : World) (dir : string)
  (coub : Coub) (e : error) :
  W.(w_WriteFile) (dir ++ "/metadata.json") (W.(w_MarshalIndent) coub) = None ->
  W.(w_Create) (dir ++ "/info.txt") = Some e ->
  CreateCoubInfoFiles W dir coub
  = (Some ErrInvalid,
     [EWriteFile (dir ++ "/metadata.json") (W.(w_MarshalIndent) coub);
      ECreate (dir ++ "/info.txt");
      EPrintln ("Unable to open file: %s " ++ Error e)]).
Proof.
  intros Hwf Hcr.
  unfold CreateCoubInfoFiles, json_MarshalIndent, ioutil_WriteFile, os_Create.
  cbn. rewrite Hwf. cbn. now rewrite Hcr.
Qed.



(** ** Properties of a whole run *)

(** When the catalogue is loaded and the directory and the metadata
    files of every clip are created without error, [ReadCoub] returns
    nil and ends on the final barrier and the message of completion,
    whatever the fetches answer and whatever [DownloadCoubData] returns:
    that value only reaches the log of the goroutine that called it. *)
Lemma ReadCoub_completes_when_prepared (W : World) (rootdir user : string) :
  snd (result (GetNonRecoubs W rootdir user)) = None ->
  Forall (fun c => prepares W rootdir (trimmed c))
    (fst (result (GetNonRecoubs W rootdir user))) ->
  result (ReadCoub W rootdir user) = None /\
  exists t, calls (ReadCoub W rootdir user)
            = t ++ [EWait wg_ReadCoub; ELog "All found coubs downloaded"].
Proof.
  rewrite result_GetNonRecoubs, result_ReadCoub, calls_ReadCoub.
  destruct (w_Open W _); [discriminate|]. cbn [fst snd].
  intros _ Hprep. set (kept := filter non_recoub _) in *.
  destruct (submit_loop_all_prepared W wg_ReadCoub rootdir kept kept Hprep
              [] eq_refl) as [Hres _].
  cbn [List.length] in Hres. rewrite Hres. split; [reflexivity|].
  eexists. rewrite !app_assoc. reflexivity.
Qed.



(** The download of a clip fetches into the directory prepared for it
    the files named after the clip as it stands in the slice. *)
Lemma download_task_fetches (W : World) (wg : WaitGroup) (dir : string)
  (c : Coub) :
  map downloads (submitted (calls (download_task W wg [c] dir 0)))
  = [ downloads (calls (DownloadFirstFrameVersions W wg_DownloadCoubData dir c));
      downloads (calls (DownloadImageVersions W wg_DownloadCoubData dir c));
      file_fetches W dir c ].
Proof.
  unfold download_task. cbn [nth_error]. run.
  rewrite !submitted_app.
  destruct (result (DownloadCoubData W wg dir c));
    cbn [calls snd submitted flat_map app];
    rewrite app_nil_r; apply DownloadCoubData_branches.
Qed.

(** ** Where the program departs from its description *)

(** C1: a catalogue file that does not parse is not reported.  In the
    first sample world [Decode] fails with a syntax error and leaves the
    slice empty: [GetNonRecoubs] returns no error, and [ReadCoub] reports
    zero clips, waits, announces completion and returns nil.  In the
    second [Decode] fails on the title of the second record, after
    filling the slice: [ReadCoub] requests a directory for both records
    and returns nil. *)
Theorem malformed_catalog_is_not_reported :
  let broken e := {| Sample.decode_error := Some e;
                     Sample.mkdir_error := fun _ => None;
                     Sample.writefile_error := fun _ => None;
                     Sample.create_error := fun _ => None;
                     Sample.fetch_error := fun _ => None |} in
  let W := Sample.world [] (broken Sample.syntax_error) in
  let W' := Sample.world [Sample.cat; Sample.untitled]
              (broken Sample.type_error) in
  (snd (W.(w_Decode) (catalog_path "/data" "alice")) = Some Sample.syntax_error /\
   result (GetNonRecoubs W "/data" "alice") = ([], None) /\
   ReadCoub W "/data" "alice"
   = (None,
      [EOpen "/data/alice.json"; EDecode "/data/alice.json";
       EFileClose "/data/alice.json"; ELog "Total Coubs to process: 0";
       EWait wg_ReadCoub; ELog "All found coubs downloaded"])) /\
  (snd (W'.(w_Decode) (catalog_path "/data" "alice")) = Some Sample.type_error /\
   result (GetNonRecoubs W' "/data" "alice")
   = ([Sample.cat; Sample.untitled], None) /\
   result (ReadCoub W' "/data" "alice") = None /\
   dirs_requested (calls (ReadCoub W' "/data" "alice"))
   = [Sample.cat; Sample.untitled]).
Proof. cbv zeta. repeat split. Qed.

(** C2: when [info.txt] of the first clip cannot be created, the run
    stops at that clip, and the error [ReadCoub] returns is
    [os.ErrInvalid], from the write to the nil file, not the error of
    the creation. *)
Theorem info_txt_creation_error_is_replaced :
  let name := "/data/Cat/info.txt" in
  let W := Sample.world [Sample.cat; Sample.dog]
             {| Sample.decode_error := None;
                Sample.mkdir_error := fun _ => None;
                Sample.writefile_error := fun _ => None;
                Sample.create_error := fun n =>
                  if String.eqb n name
                  then Some (Sample.permission_denied n) else None;
                Sample.fetch_error := fun _ => None |} in
  W.(w_Create) name = Some (Sample.permission_denied name) /\
  result (ReadCoub W "/data" "alice") = Some ErrInvalid /\
  result (ReadCoub W "/data" "alice") <> W.(w_Create) name /\
  dirs_requested (calls (ReadCoub W "/data" "alice")) = [Sample.cat] /\
  submitted (calls (ReadCoub W "/data" "alice")) = [].
Proof.
  cbv zeta. repeat split; try reflexivity. vm_compute. discriminate.
Qed.

(** C3: with six clips the barrier comes after the first and after the
    sixth submission, not after the fifth: the sixth clip is submitted
    while the second to the fifth may still be downloading. *)
Theorem barrier_follows_first_submission_not_fifth :
  let W := Sample.world Sample.six Sample.no_faults in
  schedule (calls (ReadCoub W "/data" "alice"))
  = [Submit; Barrier; Submit; Submit; Submit; Submit; Submit; Barrier; Barrier].
Proof. vm_compute. reflexivity. Qed.

(** C4: the goroutine of a clip reads the clip from the slice, whose
    title is not trimmed.  For the title [ Cat ] the directory is the
    one of the trimmed title and the renamed share file is
    [ Cat .mp4], not [Cat.mp4]. *)
Theorem renamed_share_file_keeps_untrimmed_title :
  let W := Sample.world [Sample.padded] Sample.no_faults in
  Title Sample.padded = " Cat " /\
  map Title (dirs_requested (calls (ReadCoub W "/data" "alice"))) = ["Cat"] /\
  all_downloads (calls (ReadCoub W "/data" "alice"))
  = [("/data/Cat/big.jpg", "https://img.example/first/big.jpg");
     ("/data/Cat/med.jpg", "https://img.example/first/med.jpg");
     ("/data/Cat/small.jpg", "https://img.example/first/small.jpg");
     ("/data/Cat/x.jpg", "https://img.example/000/x.jpg");
     ("/data/Cat/x.jpg", "https://img.example/100/x.jpg");
     ("/data/Cat/med.mp4", "https://cdn.example/v/med.mp4");
     ("/data/Cat/high.mp4", "https://cdn.example/v/high.mp4");
     ("/data/Cat/higher.mp4", "https://cdn.example/v/higher.mp4");
     ("/data/Cat/high.mp3", "https://cdn.example/a/high.mp3");
     ("/data/Cat/med.mp3", "https://cdn.example/a/med.mp3");
     ("/data/Cat/seg.mp4", "https://cdn.example/share/seg.mp4");
     ("/data/Cat/ Cat .mp4", "https://cdn.example/share/seg.mp4")].
Proof. cbv zeta. repeat split. Qed.

(** C5: [DownloadCoubData] does not always return nil.  What it returns
    is its named result [err], which its goroutines assign after their
    groups have signalled [Done].  With a clip whose first image cannot
    be fetched, when the goroutine of the images assigns [err] after
    [return nil] has and before the function returns,
    [DownloadCoubData] returns the error of the image group and the
    goroutine of the clip logs it; when the accesses are made thread
    after thread it returns nil; and when the goroutine of the frames
    assigns nil between the two reads of the goroutine of the images,
    that goroutine calls [Error] on nil.  Where the error is returned
    the run itself still returns nil: [ReadCoub] does not return the
    variable that its goroutines assign. *)
Theorem DownloadCoubData_can_return_a_group_error :
  let quiet := Sample.world [Sample.cat] Sample.broken_image in
  let late := Sample.with_schedule quiet Sample.late_store in
  let torn := Sample.with_schedule quiet Sample.torn_log in
  let images W :=
    nth 1 (submitted (calls (DownloadCoubData W wg_ReadCoub "/data/Cat"
                               Sample.cat))) [] in
  result (DownloadImageVersions quiet wg_DownloadCoubData "/data/Cat"
            Sample.cat) = Some Sample.not_found /\
  result (DownloadCoubData quiet wg_ReadCoub "/data/Cat" Sample.cat) = None /\
  result (DownloadCoubData late wg_ReadCoub "/data/Cat" Sample.cat)
  = Some Sample.not_found /\
  logged (clip_download late wg_ReadCoub "/data" Sample.cat)
  = ["Downloading Coub: Cat"; "Finished Downloading Coub: Cat";
     "Error downloading coub: Cat 404 Not Found"] /\
  images late
  = [ELog "Downloading Images for Coub: Cat";
     EDownloadFile "/data/Cat/x.jpg" "https://img.example/000/x.jpg";
     EDone wg_DownloadCoubData;
     ELog "Error Downloading Image Versions: 404 Not Found"] /\
  images torn
  = [ELog "Downloading Images for Coub: Cat";
     EDownloadFile "/data/Cat/x.jpg" "https://img.example/000/x.jpg";
     EDone wg_DownloadCoubData;
     ENilDereference] /\
  result (ReadCoub quiet "/data" "alice") = None /\
  result (ReadCoub late "/data" "alice") = None.
Proof. cbv zeta. repeat split; vm_compute; reflexivity. Qed.

(** * Further properties of the program *)

(** ** The catalogue *)

Lemma pair_result_calls {A : Type} (m : M A) : m = (result m, calls m).
Proof. now destruct m. Qed.

(** X1: when the catalogue file cannot be opened, [GetNonRecoubs] returns
    the error of [os.Open] with no clips, and [ReadCoub] returns that
    error having done nothing but the attempt to open the file: nothing
    is decoded, logged, created or fetched. *)
Theorem ReadCoub_unopened_catalog
  (W : World) (rootdir user : string) (e : error) :
  W.(w_Open) (catalog_path rootdir user) = Some e ->
  GetNonRecoubs W rootdir user
  = (([], Some e), [EOpen (catalog_path rootdir user)]) /\
  ReadCoub W rootdir user = (Some e, [EOpen (catalog_path rootdir user)]).
Proof.
  intro Hopen. split.
  - rewrite (pair_result_calls (GetNonRecoubs W rootdir user)).
    now rewrite result_GetNonRecoubs, calls_GetNonRecoubs, Hopen.
  - rewrite (pair_result_calls (ReadCoub W rootdir user)).
    rewrite result_ReadCoub, calls_ReadCoub, calls_GetNonRecoubs, Hopen.
    reflexivity.
Qed.

Lemma ReadCoub_unopened_catalog_witness :
  let W := Sample.with_Open (Sample.world [Sample.cat] Sample.no_faults)
             (fun name => Some (Sample.no_such_file name)) in
  ReadCoub W "/data" "alice"
  = (Some (Sample.no_such_file "/data/alice.json"), [EOpen "/data/alice.json"]).
Proof.
  intro W.
  apply (ReadCoub_unopened_catalog W "/data" "alice"
           (Sample.no_such_file "/data/alice.json")).
  reflexivity.
Defined.

Lemma filter_all_recoubs (l : list Coub) :
  Forall (fun c => c.(Type_) = "Coub::Recoub") l ->
  filter non_recoub l = [].
Proof.
  induction 1 as [|c l Hc _ IH]; [reflexivity|].
  cbn [filter]. unfold non_recoub at 1. rewrite Hc, String.eqb_refl. exact IH.
Qed.

(** X2: a catalogue with no record of the user's own (an empty one, or
    one of reposts only) makes [ReadCoub] report zero clips, pass the
    final barrier, announce completion and return nil; no directory is
    requested and nothing is fetched. *)
Theorem ReadCoub_nothing_to_process (W : World) (rootdir user : string) :
  W.(w_Open) (catalog_path rootdir user) = None ->
  Forall (fun c => c.(Type_) = "Coub::Recoub")
    (fst (W.(w_Decode) (catalog_path rootdir user))) ->
  ReadCoub W rootdir user
  = (None,
     [EOpen (catalog_path rootdir user); EDecode (catalog_path rootdir user);
      EFileClose (catalog_path rootdir user);
      ELog "Total Coubs to process: 0";
      EWait wg_ReadCoub; ELog "All found coubs downloaded"]).
Proof.
  intros Hopen Hall.
  rewrite (pair_result_calls (ReadCoub W rootdir user)).
  rewrite result_ReadCoub, calls_ReadCoub, calls_GetNonRecoubs, Hopen.
  now rewrite (filter_all_recoubs _ Hall).
Qed.

Lemma ReadCoub_nothing_to_process_witness :
  let W := Sample.world [Sample.repost; Sample.repost] Sample.no_faults in
  result (ReadCoub W "/data" "alice") = None /\
  dirs_requested (calls (ReadCoub W "/data" "alice")) = [] /\
  all_downloads (calls (ReadCoub W "/data" "alice")) = [].
Proof.
  intro W.
  rewrite (ReadCoub_nothing_to_process W "/data" "alice").
  - repeat split.
  - reflexivity.
  - repeat constructor.
Defined.

(** ** The submission schedule *)

(** X3: whatever the world answers, [ReadCoub] never has more than five
    submitted downloads outstanding: between two barriers it starts at
    most five goroutines. *)
Theorem ReadCoub_at_most_five_outstanding (W : World) (rootdir user : string) :
  peak 0 (schedule (calls (ReadCoub W rootdir user))) <= 5.
Proof. apply ReadCoub_peak. Qed.




(** ** A preparation that fails *)

Section FailingClip.

Variable W : World.
Variable wg : WaitGroup.
Variable rootdir : string.
Variable coubs : list Coub.


End FailingClip.

Section FailingRun.

Variable W : World.
Variables rootdir user : string.
Variables (pre : list Coub) (c : Coub) (post : list Coub).

Hypothesis Hopen : W.(w_Open) (catalog_path rootdir user) = None.
Hypothesis Hkept :
  filter non_recoub (fst (W.(w_Decode) (catalog_path rootdir user)))
  = pre ++ c :: post.
Hypothesis Hpre : Forall (fun c => prepares W rootdir (trimmed c)) pre.


End FailingRun.





(** ** The summary file *)

Lemma has_close_app (t1 t2 : trace) :
  has_close (t1 ++ t2) = has_close t1 || has_close t2.
Proof. apply existsb_app. Qed.

Lemma has_close_WriteString (W : World) (f : File) (s : string) :
  has_close (calls (File_WriteString W f s)) = false.
Proof. now destruct f. Qed.

Lemma has_close_write_tags (W : World) (f : File) (n : nat) (tags : list Tag) :
  forall i, has_close (calls (write_tags W f n i tags)) = false.
Proof.
  induction tags as [|tag rest IH]; intro i; [reflexivity|].
  cbn [write_tags]. run. rewrite has_close_app.
  destruct (Z.of_nat i =? Z.of_nat n - 1)%Z;
    rewrite has_close_WriteString;
    match goal with |- context [match ?r with _ => _ end] => destruct r end;
    now rewrite ?IH.
Qed.

(** X7: [CreateCoubInfoFiles] closes [info.txt] only at its very end:
    when the file was closed the function returns what [Close] returned,
    so with any other error it returns leaving the file open; and when
    it returns nil the file was closed. *)
Theorem CreateCoubInfoFiles_closes_only_at_end
  (W : World) (dir : string) (coub : Coub) :
  (has_close (calls (CreateCoubInfoFiles W dir coub)) = true ->
   result (CreateCoubInfoFiles W dir coub) = W.(w_Close) (dir ++ "/info.txt")) /\
  (result (CreateCoubInfoFiles W dir coub) = None ->
   has_close (calls (CreateCoubInfoFiles W dir coub)) = true).
Proof.
  unfold CreateCoubInfoFiles, json_MarshalIndent, ioutil_WriteFile, os_Create.
  run.
  destruct (w_WriteFile W _ _); [cbn; split; easy|].
  run.
  destruct (w_Create W _); run; [cbn; split; easy|].
  rewrite !result_WriteString.
  repeat (rewrite ?has_close_app, ?has_close_WriteString;
          cbn [has_close existsb orb];
          match goal with
          | |- context [match w_WriteString W ?n ?s with _ => _ end] =>
              destruct (w_WriteString W n s);
              [cbn [has_close existsb orb]; split; easy|]
          end).
  rewrite ?has_close_app, ?has_close_WriteString, ?has_close_write_tags.
  destruct (result (write_tags W _ _ _ _));
    [cbn [has_close existsb orb]; split; easy|].
  cbn [File_Close]. run. rewrite ?has_close_app. cbn.
  destruct (w_Close W _); split; congruence.
Qed.

Lemma CreateCoubInfoFiles_closes_only_at_end_witness :
  let W := Sample.with_WriteString (Sample.world [] Sample.no_faults)
             (fun _ s => if String.eqb s ("cat" ++ nl)
                         then Some Sample.disk_full else None) in
  result (CreateCoubInfoFiles W "/data/Dog" Sample.dog) = None /\
  has_close (calls (CreateCoubInfoFiles W "/data/Dog" Sample.dog)) = true /\
  result (CreateCoubInfoFiles W "/data/Cat" Sample.cat) = Some Sample.disk_full /\
  has_close (calls (CreateCoubInfoFiles W "/data/Cat" Sample.cat)) = false.
Proof.
  intro W.
  destruct (CreateCoubInfoFiles_closes_only_at_end W "/data/Dog" Sample.dog)
    as [Hclosed Hnil].
  split; [apply Hclosed; reflexivity|].
  split; [apply Hnil; reflexivity|].
  split; reflexivity.
Defined.

Lemma write_tags_checked (W : World) (name : string) (n : nat)
  (tags : list Tag) :
  Forall (fun s => W.(w_WriteString) name s = None) (tag_lines tags) ->
  forall i, n = i + List.length tags ->
  result (write_tags W (Some name) n i tags) = None.
Proof.
  induction tags as [|tag rest IH]; intros Hw i Hn; [reflexivity|].
  cbn [write_tags]. run.
  destruct (Z.eqb_spec (Z.of_nat i) (Z.of_nat n - 1)) as [Hlast|Hmore].
  - assert (rest = []) as ->
      by (destruct rest; [reflexivity | cbn [List.length] in Hn; lia]).
    rewrite result_WriteString.
    cbn [tag_lines] in Hw. now rewrite (Forall_inv Hw).
  - destruct rest as [|tag' rest]; [cbn [List.length] in Hn; lia|].
    rewrite result_WriteString.
    change (tag_lines (tag :: tag' :: rest))
      with ((TagTitle tag ++ ", ")%string :: tag_lines (tag' :: rest)) in Hw.
    rewrite (Forall_inv Hw).
    apply IH; [exact (Forall_inv_tail Hw) | cbn [List.length] in *; lia].
Qed.

(** X8: [CreateCoubInfoFiles] does not check the write of the [Source]
    line nor that of the label [Tags: ]: when the files are created and
    the other writes succeed, it returns what [Close] returns whatever
    those two writes answer, so a summary that lacks them still counts
    as written. *)
Theorem CreateCoubInfoFiles_unchecked_writes
  (W : World) (dir : string) (coub : Coub) :
  W.(w_WriteFile) (dir ++ "/metadata.json") (W.(w_MarshalIndent) coub) = None ->
  W.(w_Create) (dir ++ "/info.txt") = None ->
  Forall (fun s => W.(w_WriteString) (dir ++ "/info.txt") s = None)
    (checked_lines coub) ->
  result (CreateCoubInfoFiles W dir coub) = W.(w_Close) (dir ++ "/info.txt").
Proof.
  intros Hwf Hcr Hw. unfold checked_lines in Hw.
  apply Forall_app in Hw as [Hhead Htags].
  repeat match type of Hhead with
         | Forall _ (_ :: _) =>
             let H := fresh "Hline" in
             pose proof (Forall_inv Hhead) as H; cbv beta in H;
             apply Forall_inv_tail in Hhead
         end.
  unfold CreateCoubInfoFiles, json_MarshalIndent, ioutil_WriteFile, os_Create.
  run. rewrite Hwf. run. rewrite Hcr. run.
  rewrite !result_WriteString, Hline, Hline0, Hline1, Hline2, Hline3.
  rewrite (write_tags_checked W (dir ++ "/info.txt")
             (List.length (Tags coub)) (Tags coub) Htags 0 eq_refl).
  cbn [File_Close]. run. now destruct (w_Close W _).
Qed.

Lemma CreateCoubInfoFiles_unchecked_writes_witness :
  let W := Sample.with_WriteString (Sample.world [] Sample.no_faults)
             (fun _ s => if prefix "Source: " s || String.eqb s "Tags: "
                         then Some Sample.disk_full else None) in
  result (CreateCoubInfoFiles W "/data/Cat" Sample.cat) = None /\
  written W "/data/Cat/info.txt"
    (calls (CreateCoubInfoFiles W "/data/Cat" Sample.cat))
  = ("Title: Cat" ++ nl ++ "Created At: 2016-05-01 10:00:00 +0000 UTC" ++ nl
     ++ "Duration: 12.35" ++ nl ++ "Views: 10" ++ nl ++ "Recoubs: 2" ++ nl
     ++ "funny, cat" ++ nl)%string.
Proof.
  intro W. split; [|reflexivity].
  apply (CreateCoubInfoFiles_unchecked_writes W "/data/Cat" Sample.cat).
  - reflexivity.
  - reflexivity.
  - repeat constructor.
Defined.

(** ** Wait groups, pacing and logs of the downloads *)


Lemma dones_app (wg : WaitGroup) (t1 t2 : trace) :
  dones wg (t1 ++ t2) = dones wg t1 + dones wg t2.
Proof. unfold dones. now rewrite filter_app, length_app. Qed.

Lemma slept_app (t1 t2 : trace) : (slept (t1 ++ t2) = slept t1 + slept t2)%Z.
Proof.
  unfold slept. rewrite flat_map_app.
  induction (flat_map _ t1) as [|d l IH]; cbn [app fold_right]; lia.
Qed.

Lemma logged_app (t1 t2 : trace) : logged (t1 ++ t2) = logged t1 ++ logged t2.
Proof. apply flat_map_app. Qed.

Lemma no_panic_app (t1 t2 : trace) :
  no_panic (t1 ++ t2) = no_panic t1 && no_panic t2.
Proof. apply forallb_app. Qed.

Lemma all_downloads_app (t1 t2 : trace) :
  all_downloads (t1 ++ t2) = all_downloads t1 ++ all_downloads t2.
Proof. apply flat_map_app. Qed.


(** A trace of fetches, sleeps and log lines only. *)
Lemma fetch_logged_plain (W : World) (dst url what title : string)
  (wg : WaitGroup) :
  dones wg (calls (fetch_logged W dst url what title)) = 0 /\
  slept (calls (fetch_logged W dst url what title)) = 0%Z /\
  no_panic (calls (fetch_logged W dst url what title)) = true /\
  all_downloads (calls (fetch_logged W dst url what title)) = [(dst, url)] /\
  logged (calls (fetch_logged W dst url what title))
  = fetch_log W title (what, (dst, url)).
Proof.
  unfold fetch_logged, DownloadFile, fetch_log. run. cbn [fst snd].
  now destruct (w_DownloadFile W dst url).
Qed.


Section FetchLogged.

Variable W : World.
Variables dst url what title : string.

Lemma dones_fetch_logged (wg : WaitGroup) :
  dones wg (calls (fetch_logged W dst url what title)) = 0.
Proof. apply fetch_logged_plain. Qed.

Lemma slept_fetch_logged :
  slept (calls (fetch_logged W dst url what title)) = 0%Z.
Proof. apply (fetch_logged_plain W dst url what title wg_ReadCoub). Qed.

Lemma no_panic_fetch_logged :
  no_panic (calls (fetch_logged W dst url what title)) = true.
Proof. apply (fetch_logged_plain W dst url what title wg_ReadCoub). Qed.

Lemma all_downloads_fetch_logged :
  all_downloads (calls (fetch_logged W dst url what title)) = [(dst, url)].
Proof. apply (fetch_logged_plain W dst url what title wg_ReadCoub). Qed.

Lemma logged_fetch_logged :
  logged (calls (fetch_logged W dst url what title))
  = fetch_log W title (what, (dst, url)).
Proof. apply (fetch_logged_plain W dst url what title wg_ReadCoub). Qed.

End FetchLogged.

(** The body of [DownloadFileVersions], before the deferred [Done]. *)
Lemma DownloadFileVersions_body
  (W : World) (wg : WaitGroup) (filepath : string) (coub : Coub) :
  exists t,
    calls (DownloadFileVersions W wg filepath coub) = t ++ [EDone wg] /\
    (forall wg', dones wg' t = 0) /\
    slept t = (5 * DownloadInterval)%Z /\
    no_panic t = true /\
    all_downloads t = file_fetches W filepath coub /\
    logged t
    = flat_map (fetch_log W coub.(Title))
        (combine file_labels (file_fetches W filepath coub)).
Proof.
  unfold DownloadFileVersions. rewrite calls_defer_Done.
  eexists. split; [reflexivity|]. run.
  repeat split; [intro wg'|..].
  - now rewrite !dones_app, !dones_fetch_logged.
  - rewrite !slept_app, !slept_fetch_logged. reflexivity.
  - now rewrite !no_panic_app, !no_panic_fetch_logged.
  - now rewrite !all_downloads_app, !all_downloads_fetch_logged.
  - rewrite !logged_app, !logged_fetch_logged.
    cbn [logged flat_map file_labels file_fetches combine].
    cbn [app]. reflexivity.
Qed.





Lemma pace_app (t1 t2 : trace) : pace (t1 ++ t2) = pace t1 ++ pace t2.
Proof. apply flat_map_app. Qed.

Lemma pace_fetch_logged (W : World) (dst url what title : string) :
  pace (calls (fetch_logged W dst url what title)) = [Fetch dst url].
Proof.
  unfold fetch_logged, DownloadFile. run.
  now destruct (w_DownloadFile W dst url).
Qed.

Lemma pace_download_versions (W : World) (filepath template : string)
  (versions : list string) :
  pace (calls (download_versions W filepath template versions))
  = paced W (Second * 1)
      (downloads (calls (download_versions W filepath template versions))).
Proof.
  induction versions as [|v rest IH]; [reflexivity|].
  rewrite download_versions_cons. unfold DownloadFile. run.
  set (f := version_fetch W filepath template v).
  destruct (w_DownloadFile W (fst f) (snd f)) eqn:Hans;
    rewrite !pace_app, !downloads_app, ?IH;
    cbn [pace downloads flat_map app paced fst snd]; rewrite Hans;
    reflexivity.
Qed.

(** X11: the file group pauses for a tenth of a second right after each
    of its first five fetches and not after the two fetches of the share
    file, whatever the fetches answer; an image or frame group pauses
    for one second right after each fetch that succeeds and not after
    the one that fails. *)
Theorem asset_groups_pacing
  (W : World) (wg : WaitGroup) (filepath : string) (coub : Coub) :
  pace (calls (DownloadFileVersions W wg filepath coub))
  = file_pace (100 * Millisecond) (file_fetches W filepath coub) /\
  pace (calls (DownloadImageVersions W wg filepath coub))
  = paced W Second (group_fetches W filepath coub.(ImageVersions)) /\
  pace (calls (DownloadFirstFrameVersions W wg filepath coub))
  = paced W Second (group_fetches W filepath coub.(FirstFrameVersions)).
Proof.
  split; [|split].
  - unfold DownloadFileVersions. run.
    rewrite !pace_app, !pace_fetch_logged. reflexivity.
  - unfold DownloadImageVersions. rewrite calls_defer_Done, pace_app,
      pace_download_versions. apply app_nil_r.
  - unfold DownloadFirstFrameVersions. rewrite calls_defer_Done, pace_app,
      pace_download_versions. apply app_nil_r.
Qed.

(** X12: the file group logs one line for each of its fetches that
    fails, in the order of the fetches, naming the rendition, the title
    of the clip and the error, and logs nothing for a fetch that
    succeeds. *)
Theorem DownloadFileVersions_logs_each_failure
  (W : World) (wg : WaitGroup) (filepath : string) (coub : Coub) :
  logged (calls (DownloadFileVersions W wg filepath coub))
  = flat_map (fetch_log W coub.(Title))
      (combine file_labels (file_fetches W filepath coub)).
Proof.
  destruct (DownloadFileVersions_body W wg filepath coub)
    as [t [-> [_ [_ [_ [_ Hl]]]]]].
  rewrite logged_app, Hl. apply app_nil_r.
Qed.

(** ** Where the files of a clip go *)








(** ** The goroutines of a run *)







Section LoopAccounts.

Variable W : World.
Variable wg : WaitGroup.
Variable rootdir : string.
Variable coubs : list Coub.


End LoopAccounts.

Section RunAccounts.

Variable W : World.
Variables rootdir user : string.

Local Abbreviation kept :=
  (filter non_recoub (fst (W.(w_Decode) (catalog_path rootdir user)))).



End RunAccounts.



